(** * Habit tracker: validation rules and reminder dispatch

    A shallow embedding of [habits/models.py], [habits/serializers.py] and
    [habits/tasks.py].  Python integers are [Z], counters that start at zero
    and only grow are [nat], Python [str] is a UTF-8 encoded [string], a
    nullable column is an [option].  Foreign keys are modelled by the object
    the ORM resolves them to ([habit.user], [habit.related_habit],
    [user.profile]). *)

From Stdlib Require Import ZArith List String Ascii Bool Lia DecimalString.
Import ListNotations.

Set Warnings "-register-all".

Open Scope string_scope.
Open Scope list_scope.
Open Scope Z_scope.

(** ** Python truthiness ([if x:], [x and y], [x or y]) *)

Class Truthy (A : Type) := truthy : A -> bool.

#[global] Instance truthy_bool : Truthy bool := fun b => b.

#[global] Instance truthy_str : Truthy string :=
  fun s => match s with EmptyString => false | String _ _ => true end.

#[global] Instance truthy_option {A : Type} `{Truthy A} : Truthy (option A) :=
  fun o => match o with None => false | Some a => truthy a end.

(** [x or default] on a nullable string. *)
Definition or_else (x : option string) (default : string) : string :=
  match x with
  | Some s => if truthy s then s else default
  | None => default
  end.

(** [len(s)] counts code points: the bytes of the UTF-8 encoding that are
    not continuation bytes [10xxxxxx]. *)
Definition is_continuation (c : ascii) : bool :=
  match c with Ascii _ _ _ _ _ _ b6 b7 => b7 && negb b6 end.

Fixpoint len (s : string) : Z :=
  match s with
  | EmptyString => 0
  | String c s' => (if is_continuation c then 0 else 1) + len s'
  end.

(** ** Exceptions *)

(** The rule a validation error reports.  The first four are the rules of
    [Habit.clean] and [HabitSerializer.validate]; [FieldError] is a failed
    field check of [clean_fields] (field name, error code). *)
Inductive Violation : Type :=
| PleasantHabitHasReward
| PleasantHabitHasRelated
| RewardAndRelatedBothSet
| RelatedHabitNotPleasant
| FieldError (field : string) (code : string).

Inductive Exn : Type :=
| ValidationError (errors : list Violation)      (* django.core.exceptions *)
| SerializerValidationError (error : Violation)  (* rest_framework.serializers *)
| RelatedObjectDoesNotExist   (* UserProfile.DoesNotExist and AttributeError *)
| DatabaseError               (* django.db *)
| Timeout                     (* requests.exceptions.Timeout *)
| ConnectionError             (* requests.exceptions, not a Timeout *)
| RuntimeError.               (* any other Exception *)

(** The classes named by the [except] clauses and by [hasattr]. *)
Inductive ExnClass : Type :=
| DoesNotExist_cls
| AttributeError_cls
| Timeout_cls
| RequestException_cls
| Exception_cls.

Definition isinstance (e : Exn) (c : ExnClass) : bool :=
  match c, e with
  | Exception_cls, _ => true
  | DoesNotExist_cls, RelatedObjectDoesNotExist => true
  | AttributeError_cls, RelatedObjectDoesNotExist => true
  | Timeout_cls, Timeout => true
  | RequestException_cls, (Timeout | ConnectionError) => true
  | _, _ => false
  end.

Inductive Result (A : Type) : Type :=
| Ok (a : A)
| Raise (e : Exn).
Arguments Ok {A} a.
Arguments Raise {A} e.

Definition is_ok {A : Type} (r : Result A) : bool :=
  match r with Ok _ => true | Raise _ => false end.

(** ** Monads: plain exceptions, and exceptions over a state *)

Class Monad (m : Type -> Type) : Type := {
  ret : forall {A : Type}, A -> m A;
  bind : forall {A B : Type}, m A -> (A -> m B) -> m B
}.

Notation "x <- c ;; k" := (bind c (fun x => k))
  (at level 61, c at next level, right associativity).
Notation "c ;;; k" := (bind c (fun _ => k))
  (at level 61, right associativity).

#[global] Instance Result_Monad : Monad Result := {
  ret := fun A a => Ok a;
  bind := fun A B c k => match c with Ok a => k a | Raise e => Raise e end
}.

(** ** Data model ([models.py]) *)

(** [datetime.time]. *)
Record Time : Type := mkTime {
  hour : Z;
  minute : Z;
  second : Z;
  microsecond : Z
}.

(** An aware UTC [datetime]: microseconds since the epoch. *)
Definition DateTime : Type := Z.

Definition us_per_second : Z := 1000000.
Definition us_per_minute : Z := 60 * us_per_second.
Definition us_per_hour : Z := 60 * us_per_minute.
Definition us_per_day : Z := 24 * us_per_hour.

(** [dt.time()]. *)
Definition time_of (dt : DateTime) : Time :=
  {| hour := (dt / us_per_hour) mod 24;
     minute := (dt / us_per_minute) mod 60;
     second := (dt / us_per_second) mod 60;
     microsecond := dt mod us_per_second |}.

(** [timedelta(days=n)]. *)
Definition timedelta_days (n : Z) : Z := n * us_per_day.

Record UserProfile : Type := mkUserProfile {
  telegram_id : option string;
  telegram_username : option string
}.

(** [django.contrib.auth.models.User] with its reverse one-to-one accessor
    [profile] ([None] when no [UserProfile] row points at the user). *)
Record User : Type := mkUser {
  user_id : Z;
  username : string;
  is_active : bool;
  profile : option UserProfile
}.

Inductive Habit : Type := mkHabit {
  user : User;
  place : option string;
  time : Time;
  action : string;
  is_pleasant : bool;
  related_habit : option Habit;
  frequency : Z;
  reward : option string;
  duration : Z;
  is_public : bool;
  created_at : DateTime
}.

(** A model instance defines neither [__bool__] nor [__len__]: it is always
    truthy. *)
#[global] Instance truthy_Habit : Truthy Habit := fun _ => true.

(** ** [Habit.clean] *)

Definition raise_validation (v : Violation) : Result unit :=
  Raise (ValidationError [v]).

(** [x and not x.is_pleasant] for a nullable reference [x]. *)
Definition and_not_pleasant (x : option Habit) : bool :=
  match x with
  | Some r => truthy r && negb (is_pleasant r)
  | None => false
  end.

Definition clean (self : Habit) : Result unit :=
  (if truthy (is_pleasant self) then
     (if truthy (reward self)
      then raise_validation PleasantHabitHasReward else ret tt) ;;;
     (if truthy (related_habit self)
      then raise_validation PleasantHabitHasRelated else ret tt)
   else ret tt) ;;;
  (if negb (truthy (is_pleasant self)) then
     (if truthy (reward self) && truthy (related_habit self)
      then raise_validation RewardAndRelatedBothSet else ret tt)
   else ret tt) ;;;
  (if and_not_pleasant (related_habit self)
   then raise_validation RelatedHabitNotPleasant else ret tt).

(** The messages [clean] raises with. *)
Definition clean_message (v : Violation) : string :=
  match v with
  | PleasantHabitHasReward =>
      "У приятной привычки не может быть вознаграждения."
  | PleasantHabitHasRelated =>
      "У приятной привычки не может быть связанной привычки."
  | RewardAndRelatedBothSet =>
      "Нельзя одновременно указать вознаграждение и связанную привычку. Выберите что-то одно."
  | RelatedHabitNotPleasant =>
      "Связанная привычка должна иметь признак 'приятной'."
  | FieldError _ code => code
  end.

(** ** Field validators ([frequency], [duration], the character fields) *)

Inductive Validator : Type :=
| MinValueValidator (limit_value : Z)
| MaxValueValidator (limit_value : Z).

(** [None] when the value passes, the error code otherwise. *)
Definition run_validator (v : Validator) (value : Z) : option string :=
  match v with
  | MinValueValidator limit => if value <? limit then Some "min_value" else None
  | MaxValueValidator limit => if limit <? value then Some "max_value" else None
  end.

Fixpoint run_validators (vs : list Validator) (value : Z) : list string :=
  match vs with
  | [] => []
  | v :: vs' =>
      match run_validator v value with
      | Some code => code :: run_validators vs' value
      | None => run_validators vs' value
      end
  end.

(** [models.PositiveIntegerField(validators=declared)]: Django completes the
    declared validators with the range of the column type, zero included,
    unless a declared validator is already at least as strict. *)
Definition positive_integer_range : Z * Z := (0, 2147483647).

Definition has_min_at_least (m : Z) (vs : list Validator) : bool :=
  existsb (fun v => match v with
                    | MinValueValidator l => m <=? l
                    | MaxValueValidator _ => false
                    end) vs.

Definition has_max_at_most (m : Z) (vs : list Validator) : bool :=
  existsb (fun v => match v with
                    | MaxValueValidator l => l <=? m
                    | MinValueValidator _ => false
                    end) vs.

Definition PositiveIntegerField (declared : list Validator) : list Validator :=
  let '(min_value, max_value) := positive_integer_range in
  declared
  ++ (if has_min_at_least min_value declared
      then [] else [MinValueValidator min_value])
  ++ (if has_max_at_most max_value declared
      then [] else [MaxValueValidator max_value]).

Definition frequency_validators : list Validator :=
  PositiveIntegerField [MinValueValidator 1; MaxValueValidator 7].

Definition duration_validators : list Validator :=
  PositiveIntegerField [MaxValueValidator 2].

Definition integer_field_errors (name : string) (vs : list Validator)
    (value : Z) : list Violation :=
  map (FieldError name) (run_validators vs value).

(** [models.CharField(max_length=n, blank=b)] on a raw value: an empty value
    ([None] or the empty string) is skipped when [blank] holds and is an
    error otherwise; a non-empty one is checked against [max_length]. *)
Definition char_field_errors (name : string) (max_length : Z) (blank : bool)
    (raw_value : option string) : list Violation :=
  match raw_value with
  | None => if blank then [] else [FieldError name "null"]
  | Some s =>
      if truthy s
      then (if max_length <? len s then [FieldError name "max_length"] else [])
      else (if blank then [] else [FieldError name "blank"])
  end.

(** [Model.clean_fields], field by field in declaration order.  The fields
    whose Python type already fixes their validity ([time], the booleans,
    the resolved foreign keys, [created_at]) contribute nothing. *)
Definition clean_fields (self : Habit) : list Violation :=
  char_field_errors "place" 200 true (place self)
  ++ char_field_errors "action" 200 false (Some (action self))
  ++ integer_field_errors "frequency" frequency_validators (frequency self)
  ++ char_field_errors "reward" 200 true (reward self)
  ++ integer_field_errors "duration" duration_validators (duration self).

(** [Model.full_clean]: [clean] runs even when a field check failed, and
    one [ValidationError] carries everything that was found. *)
Definition full_clean (self : Habit) : Result unit :=
  let errors :=
    clean_fields self
    ++ match clean self with
       | Raise (ValidationError es) => es
       | _ => []
       end in
  match errors with
  | [] => Ok tt
  | _ :: _ => Raise (ValidationError errors)
  end.

(** ** [HabitSerializer] ([serializers.py]) *)

(** The validated request data: a dict with one entry per writable field the
    request supplied ([None] here: the key is missing).  A nullable field
    that is supplied may hold [None]. *)
Record Data : Type := mkData {
  data_place : option (option string);
  data_time : option Time;
  data_action : option string;
  data_is_pleasant : option bool;
  data_related_habit : option (option Habit);
  data_frequency : option Z;
  data_reward : option (option string);
  data_duration : option Z;
  data_is_public : option bool
}.

(** [data.get(key)] on a nullable entry and [data.get(key, default)]. *)
Definition get {A : Type} (entry : option (option A)) : option A :=
  match entry with Some v => v | None => None end.

Definition get_or {A : Type} (entry : option A) (default : A) : A :=
  match entry with Some v => v | None => default end.

Definition raise_serializer (v : Violation) : Result unit :=
  Raise (SerializerValidationError v).

Definition validate (data : Data) : Result Data :=
  let is_pleasant := get_or (data_is_pleasant data) false in
  let reward := get (data_reward data) in
  let related_habit := get (data_related_habit data) in
  (if truthy is_pleasant then
     (if truthy reward
      then raise_serializer PleasantHabitHasReward else ret tt) ;;;
     (if truthy related_habit
      then raise_serializer PleasantHabitHasRelated else ret tt)
   else
     (if truthy reward && truthy related_habit
      then raise_serializer RewardAndRelatedBothSet else ret tt)) ;;;
  (if and_not_pleasant related_habit
   then raise_serializer RelatedHabitNotPleasant else ret tt) ;;;
  ret data.

(** The messages [validate] raises with. *)
Definition validate_message (v : Violation) : string :=
  match v with
  | PleasantHabitHasReward =>
      "У приятной привычки не может быть вознаграждения."
  | PleasantHabitHasRelated =>
      "У приятной привычки не может быть связанной привычки."
  | RewardAndRelatedBothSet =>
      "Нельзя одновременно указать вознаграждение и связанную привычку."
  | RelatedHabitNotPleasant =>
      "Связанная привычка должна быть приятной."
  | FieldError _ code => code
  end.

(** [ModelSerializer.create] as [perform_create] calls it: the request user
    becomes the owner, a field the request left out takes the default of its
    model field, [created_at] is the time of insertion.  [time], [action]
    and [duration] have no default; the serializer requires them. *)
Definition create (request_user : User) (now : DateTime)
    (t : Time) (a : string) (d : Z) (validated_data : Data) : Habit :=
  {| user := request_user;
     place := get (data_place validated_data);
     time := t;
     action := a;
     is_pleasant := get_or (data_is_pleasant validated_data) false;
     related_habit := get (data_related_habit validated_data);
     frequency := get_or (data_frequency validated_data) 1;
     reward := get (data_reward validated_data);
     duration := d;
     is_public := get_or (data_is_public validated_data) false;
     created_at := now |}.

Definition required (name : string) {A : Type} (entry : option A) : Result A :=
  match entry with
  | Some v => Ok v
  | None => Raise (SerializerValidationError (FieldError name "required"))
  end.

(** [HabitViewSet.create]: [is_valid] then [perform_create]. *)
Definition api_create (request_user : User) (now : DateTime) (data : Data)
    : Result Habit :=
  t <- required "time" (data_time data) ;;
  a <- required "action" (data_action data) ;;
  d <- required "duration" (data_duration data) ;;
  validated_data <- validate data ;;
  ret (create request_user now t a d validated_data).

(** [ModelSerializer.update]: every supplied entry is set on the instance,
    the other attributes keep their stored value. *)
Definition update (instance : Habit) (validated_data : Data) : Habit :=
  {| user := user instance;
     place := get_or (data_place validated_data) (place instance);
     time := get_or (data_time validated_data) (time instance);
     action := get_or (data_action validated_data) (action instance);
     is_pleasant := get_or (data_is_pleasant validated_data) (is_pleasant instance);
     related_habit :=
       get_or (data_related_habit validated_data) (related_habit instance);
     frequency := get_or (data_frequency validated_data) (frequency instance);
     reward := get_or (data_reward validated_data) (reward instance);
     duration := get_or (data_duration validated_data) (duration instance);
     is_public := get_or (data_is_public validated_data) (is_public instance);
     created_at := created_at instance |}.

(** [HabitViewSet.partial_update] (PATCH): [is_valid] on the supplied
    entries, then [save] on the stored instance. *)
Definition api_partial_update (instance : Habit) (data : Data) : Result Habit :=
  validated_data <- validate data ;;
  ret (update instance validated_data).

(** ** The tasks ([tasks.py])

    A task runs against a store it only reads and a network it posts to.
    Calls to [logger] change neither control flow nor results and are left
    out. *)

(** [str(n)] and [f"{n}"] for an integer; [f"{x}"] for a nullable string. *)
Definition str (n : Z) : string := NilZero.string_of_int (Z.to_int n).

Definition fstr (x : option string) : string :=
  match x with Some s => s | None => "None" end.

Definition nl : string := String (ascii_of_nat 10) EmptyString.

(** [t.strftime('%H:%M')]. *)
Definition two_digits (n : Z) : string :=
  if n <? 10 then ("0" ++ str n)%string else str n.

Definition strftime_HM (t : Time) : string :=
  (two_digits (hour t) ++ ":" ++ two_digits (minute t))%string.

(** The store: [Habit.objects] and [User.objects]. *)
Record Store : Type := mkStore {
  users : list User;
  habits : list Habit
}.

(** [requests.post(url, data={chat_id, text, parse_mode}, timeout=...)]. *)
Record Request : Type := mkRequest {
  url : string;
  chat_id : string;
  text : string;
  parse_mode : string;
  timeout : Z
}.

Record Response : Type := mkResponse {
  status_code : Z;
  response_text : string
}.

Inductive PostOutcome : Type :=
| Responds (response : Response)
| Raises (e : Exn).

(** The network answers a request knowing the requests attempted before it
    (newest first). *)
Definition Network : Type := list Request -> Request -> PostOutcome.

(** A task runs over the list of requests attempted so far and may raise. *)
Definition M (A : Type) : Type := list Request -> Result A * list Request.

#[global] Instance M_Monad : Monad M := {
  ret := fun A a attempts => (Ok a, attempts);
  bind := fun A B c k attempts =>
    match c attempts with
    | (Ok a, attempts') => k a attempts'
    | (Raise e, attempts') => (Raise e, attempts')
    end
}.

Definition raise {A : Type} (e : Exn) : M A :=
  fun attempts => (Raise e, attempts).

(** [try: body except C1: h1 except C2: h2 ...]: the first clause whose class
    the exception is an instance of handles it. *)
Definition try_except {A : Type} (body : M A)
    (clauses : list (ExnClass * (Exn -> M A))) : M A :=
  fun attempts =>
    match body attempts with
    | (Ok a, attempts') => (Ok a, attempts')
    | (Raise e, attempts') =>
        match find (fun clause => isinstance e (fst clause)) clauses with
        | Some (_, handler) => handler e attempts'
        | None => (Raise e, attempts')
        end
    end.

(** [for x in xs: state = body(x, state)]. *)
Fixpoint for_each {A S : Type} (xs : list A) (body : A -> S -> M S) (state : S)
    : M S :=
  match xs with
  | [] => ret state
  | x :: xs' => state' <- body x state ;; for_each xs' body state'
  end.

(** [user.profile]: raises when the user has no profile row. *)
Definition get_profile (u : User) : M UserProfile :=
  match profile u with
  | Some p => ret p
  | None => raise RelatedObjectDoesNotExist
  end.

(** [hasattr(user, "profile")]: an [AttributeError] means no. *)
Definition hasattr_profile (u : User) : M bool :=
  try_except (get_profile u ;;; ret true)
             [(AttributeError_cls, fun _ => ret false)].

(** [telegram_id = None] followed by
    [if hasattr(u, "profile") and u.profile.telegram_id:
         telegram_id = u.profile.telegram_id]. *)
Definition lookup_telegram_id (u : User) : M (option string) :=
  has <- hasattr_profile u ;;
  if has then
    p <- get_profile u ;;
    if truthy (telegram_id p)
    then p' <- get_profile u ;; ret (telegram_id p')
    else ret None
  else ret None.

Definition reminder_message (habit : Habit) : string :=
  ("🔔 <b>Напоминание о привычке!</b>" ++ nl ++ nl
   ++ "⏰ <b>Время:</b> " ++ strftime_HM (time habit) ++ nl
   ++ "📍 <b>Место:</b> " ++ or_else (place habit) "Не указано" ++ nl
   ++ "✅ <b>Действие:</b> " ++ action habit ++ nl
   ++ "⏱ <b>Время на выполнение:</b> " ++ str (duration habit) ++ " мин." ++ nl
   ++ "🎁 <b>Вознаграждение:</b> " ++ or_else (reward habit) "Нет")%string.

Definition weekly_message (u : User) (completed_habits : nat) : string :=
  ("📊 <b>Недельный отчёт</b>" ++ nl ++ nl
   ++ "👤 Пользователь: " ++ username u ++ nl
   ++ "📅 Период: последние 7 дней" ++ nl
   ++ "✅ Создано привычек: " ++ str (Z.of_nat completed_habits) ++ nl ++ nl
   ++ "Продолжай в том же духе! 💪")%string.

Definition result_text (checked sent_count skipped_count : nat) : string :=
  ("Проверено привычек: " ++ str (Z.of_nat checked)
   ++ ", отправлено: " ++ str (Z.of_nat sent_count)
   ++ ", пропущено: " ++ str (Z.of_nat skipped_count))%string.

(** The filter of the reminder query: [time__hour], [time__minute] and
    [user__is_active=True]. *)
Definition is_due (current_time : Time) (habit : Habit) : bool :=
  (hour (time habit) =? hour current_time)
  && (minute (time habit) =? minute current_time)
  && Bool.eqb (is_active (user habit)) true.

(** The rows of [Habit.objects.filter(user=u, created_at__gte=since)]. *)
Definition created_since (store : Store) (u : User) (since : DateTime)
    : list Habit :=
  filter (fun h => (user_id (user h) =? user_id u) && (since <=? created_at h))
         (habits store).

(** The rows of [User.objects.filter(is_active=True)]. *)
Definition active_users (store : Store) : list User :=
  filter (fun u => Bool.eqb (is_active u) true) (users store).

(** The rows the reminder query returns at [now]. *)
Definition due_habits (store : Store) (now : DateTime) : list Habit :=
  let current_time := time_of now in
  filter (is_due current_time) (habits store).

Section Tasks.

(** [settings.TELEGRAM_BOT_TOKEN]. *)
Variable TELEGRAM_BOT_TOKEN : option string.

Variable network : Network.

(** The weekly report guards each user with [except Exception]; the
    failure it guards against is the count query of the store raising for
    that user ([None]: the query answers). *)
Variable count_query_error : User -> option Exn.

Definition requests_post (request : Request) : M Response :=
  fun attempts =>
    match network attempts request with
    | Responds response => (Ok response, request :: attempts)
    | Raises e => (Raise e, request :: attempts)
    end.

Definition sendMessage_request (bot_token : option string)
    (chat_id text : string) : Request :=
  {| url := ("https://api.telegram.org/bot" ++ fstr bot_token
             ++ "/sendMessage")%string;
     chat_id := chat_id;
     text := text;
     parse_mode := "HTML";
     timeout := 10 |}.

Definition send_telegram_message (chat_id text : string) : M bool :=
  let bot_token := TELEGRAM_BOT_TOKEN in
  if negb (truthy bot_token) then ret false
  else
    try_except
      (response <- requests_post (sendMessage_request bot_token chat_id text) ;;
       if status_code response =? 200 then ret true else ret false)
      [(Timeout_cls, fun _ => ret false);
       (RequestException_cls, fun _ => ret false);
       (Exception_cls, fun _ => ret false)].

(** One iteration of the reminder loop on the counters
    [(sent_count, skipped_count)]. *)
Definition reminder_step (habit : Habit) (counts : nat * nat)
    : M (nat * nat) :=
  let '(sent_count, skipped_count) := counts in
  looked_up <-
    try_except
      (telegram_id <- lookup_telegram_id (user habit) ;; ret (Some telegram_id))
      [(DoesNotExist_cls, fun _ => ret None)] ;;
  match looked_up with
  | None => ret (sent_count, S skipped_count)          (* continue *)
  | Some (Some telegram_id) =>
      if truthy telegram_id then
        let message := reminder_message habit in
        success <- send_telegram_message telegram_id message ;;
        if success
        then ret (S sent_count, skipped_count)
        else ret (sent_count, S skipped_count)
      else ret (sent_count, S skipped_count)
  | Some None => ret (sent_count, S skipped_count)
  end.

(** The queryset is evaluated once, by the loop; [habits.count()] after
    the loop is the length of that cached result. *)
Definition send_reminder_notifications (store : Store) (now : DateTime)
    : M string :=
  let habits := due_habits store now in
  counts <- for_each habits reminder_step (0%nat, 0%nat) ;;
  let '(sent_count, skipped_count) := counts in
  ret (result_text (List.length habits) sent_count skipped_count).

(** [Habit.objects.filter(user=user, created_at__gte=week_ago).count()]. *)
Definition count_created_since (store : Store) (u : User) (since : DateTime)
    : M nat :=
  match count_query_error u with
  | Some e => raise e
  | None => ret (List.length (created_since store u since))
  end.

(** One iteration of the weekly loop. *)
Definition weekly_step (store : Store) (week_ago : DateTime) (u : User)
    (_ : unit) : M unit :=
  try_except
    (looked_up <- lookup_telegram_id u ;;
     match looked_up with
     | Some telegram_id =>
         if truthy telegram_id then
           completed_habits <- count_created_since store u week_ago ;;
           let message := weekly_message u completed_habits in
           send_telegram_message telegram_id message ;;;
           ret tt
         else ret tt
     | None => ret tt
     end)
    [(Exception_cls, fun _ => ret tt)].

Definition send_weekly_report (store : Store) (now : DateTime) : M string :=
  let week_ago := now - timedelta_days 7 in
  let users := active_users store in
  for_each users (weekly_step store week_ago) tt ;;;
  ret "Недельные отчёты отправлены".

End Tasks.

(** ** Record updates and sample rows *)

Definition with_reward (x : option string) (h : Habit) : Habit :=
  mkHabit (user h) (place h) (time h) (action h) (is_pleasant h)
          (related_habit h) (frequency h) x (duration h) (is_public h)
          (created_at h).

Definition with_related_habit (x : option Habit) (h : Habit) : Habit :=
  mkHabit (user h) (place h) (time h) (action h) (is_pleasant h)
          x (frequency h) (reward h) (duration h) (is_public h)
          (created_at h).

Definition with_frequency (x : Z) (h : Habit) : Habit :=
  mkHabit (user h) (place h) (time h) (action h) (is_pleasant h)
          (related_habit h) x (reward h) (duration h) (is_public h)
          (created_at h).

Definition with_duration (x : Z) (h : Habit) : Habit :=
  mkHabit (user h) (place h) (time h) (action h) (is_pleasant h)
          (related_habit h) (frequency h) (reward h) x (is_public h)
          (created_at h).

Definition with_user (x : User) (h : Habit) : Habit :=
  mkHabit x (place h) (time h) (action h) (is_pleasant h)
          (related_habit h) (frequency h) (reward h) (duration h) (is_public h)
          (created_at h).

Definition data_with_reward (x : option (option string)) (d : Data) : Data :=
  mkData (data_place d) (data_time d) (data_action d) (data_is_pleasant d)
         (data_related_habit d) (data_frequency d) x (data_duration d)
         (data_is_public d).

(** The empty request body. *)
Definition no_data : Data :=
  mkData None None None None None None None None None.

Definition testuser : User :=
  {| user_id := 1; username := "testuser"; is_active := true;
     profile := Some {| telegram_id := Some "1001";
                        telegram_username := Some "tester" |} |}.

(** A user without a profile row, and one whose profile has no address. *)
Definition other : User :=
  {| user_id := 2; username := "other"; is_active := true; profile := None |}.

Definition other2 : User :=
  {| user_id := 3; username := "other2"; is_active := true;
     profile := Some {| telegram_id := Some EmptyString;
                        telegram_username := None |} |}.

Definition eve : User :=
  {| user_id := 5; username := "eve"; is_active := true;
     profile := Some {| telegram_id := Some "77";
                        telegram_username := None |} |}.

(** 2024-01-01 00:00:00 UTC. *)
Definition new_year : DateTime := 1704067200 * us_per_second.

(** The useful habit of the model tests: 08:00, daily, one minute. *)
Definition drink_water : Habit :=
  {| user := testuser; place := Some "Дома"; time := mkTime 8 0 0 0;
     action := "Пить воду"; is_pleasant := false; related_habit := None;
     frequency := 1; reward := None; duration := 1; is_public := true;
     created_at := new_year |}.

(** A pleasant habit and a second useful one. *)
Definition rest : Habit :=
  {| user := testuser; place := None; time := mkTime 10 0 0 0;
     action := "Отдых"; is_pleasant := true; related_habit := None;
     frequency := 1; reward := None; duration := 1; is_public := false;
     created_at := new_year |}.

Definition work : Habit :=
  {| user := testuser; place := None; time := mkTime 11 0 0 0;
     action := "Работа"; is_pleasant := false; related_habit := None;
     frequency := 1; reward := None; duration := 1; is_public := false;
     created_at := new_year |}.

(** PATCH bodies. *)
Definition patch_reward (x : string) : Data :=
  data_with_reward (Some (Some x)) no_data.

Definition patch_related_habit (x : Habit) : Data :=
  mkData None None None None (Some (Some x)) None None None None.

(** ** Vocabulary of the statements *)

(** A nullable value is present for the validators when their test on it
    succeeds: it is neither [None] nor empty. *)
Definition present {A : Type} `{Truthy A} (x : option A) : Prop :=
  truthy x = true.

(** The rule a triple [(is_pleasant, reward, related_habit)] violates, in the
    order of the invariants of the data model: a pleasant habit has no reward
    and no related habit, a useful one does not have both, and a related habit
    is pleasant. *)
Definition violated_rule (pleasant : bool) (rew : option string)
    (rel : option Habit) : option Violation :=
  if pleasant then
    if truthy rew then Some PleasantHabitHasReward
    else if truthy rel then Some PleasantHabitHasRelated
    else None
  else
    if truthy rew && truthy rel then Some RewardAndRelatedBothSet
    else if and_not_pleasant rel then Some RelatedHabitNotPleasant
    else None.

(** The address recipient resolution ends with: the [telegram_id] of the
    owner's profile when there is a profile and the address is not empty. *)
Definition resolve (u : User) : option string :=
  match profile u with
  | Some p => if truthy (telegram_id p) then telegram_id p else None
  | None => None
  end.

(** The transport attempts one due habit accounts for: one request to the
    resolved address when there is one and the transport is configured. *)
Definition reminder_requests (bot_token : option string) (habit : Habit)
    : list Request :=
  match resolve (user habit) with
  | Some address =>
      if truthy bot_token
      then [sendMessage_request bot_token address (reminder_message habit)]
      else []
  | None => []
  end.

(** The transport attempts one user of the weekly report accounts for. *)
Definition weekly_requests (bot_token : option string)
    (count_query_error : User -> option Exn) (store : Store)
    (week_ago : DateTime) (u : User) : list Request :=
  match resolve u, count_query_error u with
  | Some address, None =>
      if truthy bot_token
      then [sendMessage_request bot_token address
              (weekly_message u (List.length (created_since store u week_ago)))]
      else []
  | _, _ => []
  end.

(** ** [HabitViewSet] ([views.py]) *)

(** [get_queryset]: [Habit.objects.filter(Q(user=user) | Q(is_public=True))]
    for the user of the request. *)
Definition get_queryset (store : Store) (request_user : User) : list Habit :=
  filter (fun h => (user_id (user h) =? user_id request_user)
                   || Bool.eqb (is_public h) true)
         (habits store).

(** ** More vocabulary *)

Definition with_place (x : option string) (h : Habit) : Habit :=
  mkHabit (user h) x (time h) (action h) (is_pleasant h)
          (related_habit h) (frequency h) (reward h) (duration h) (is_public h)
          (created_at h).

(** The three invariants of the data model on the triple a validator looks
    at. *)
Definition well_formed_triple (pleasant : bool) (rew : option string)
    (rel : option Habit) : Prop :=
  (pleasant = true -> ~ present rew /\ rel = None)
  /\ (pleasant = false -> ~ (present rew /\ present rel))
  /\ match rel with
     | Some r => is_pleasant r = true
     | None => True
     end.

Definition has_address (u : User) : bool :=
  match resolve u with Some _ => true | None => false end.

(** Whether the request made for a habit, after the given attempts, is
    answered with status 200. *)
Definition delivered (bot_token : option string) (network : Network)
    (habit : Habit) (attempts : list Request) : bool :=
  match reminder_requests bot_token habit with
  | request :: _ =>
      match network attempts request with
      | Responds response => status_code response =? 200
      | Raises _ => false
      end
  | [] => false
  end.

(** The number of habits of a run that are delivered, each one after the
    attempts of the habits before it. *)
Fixpoint sent_total (bot_token : option string) (network : Network)
    (habits : list Habit) (attempts : list Request) : nat :=
  match habits with
  | [] => 0%nat
  | habit :: habits' =>
      ((if delivered bot_token network habit attempts then 1 else 0)
       + sent_total bot_token network habits'
           (rev (reminder_requests bot_token habit) ++ attempts))%nat
  end.

(** * The validators *)

Lemma clean_violated_rule (h : Habit) :
  clean h =
    match violated_rule (is_pleasant h) (reward h) (related_habit h) with
    | Some v => raise_validation v
    | None => Ok tt
    end.
Proof.
  unfold clean, violated_rule.
  destruct (is_pleasant h); destruct (reward h) as [[|c w]|];
    destruct (related_habit h) as [r|]; try reflexivity;
    cbn; destruct (is_pleasant r); reflexivity.
Qed.

Lemma validate_violated_rule (data : Data) :
  validate data =
    match violated_rule (get_or (data_is_pleasant data) false)
                        (get (data_reward data))
                        (get (data_related_habit data)) with
    | Some v => Raise (SerializerValidationError v)
    | None => Ok data
    end.
Proof.
  unfold validate, violated_rule.
  destruct (get_or (data_is_pleasant data) false);
    destruct (get (data_reward data)) as [[|c w]|];
    destruct (get (data_related_habit data)) as [r|]; try reflexivity;
    cbn; destruct (is_pleasant r); reflexivity.
Qed.

(** Case analysis on the triple a validator looks at; the hypotheses are
    still in the goal. *)
Ltac rule_cases p rew rel :=
  unfold violated_rule, present;
  destruct p; destruct rew as [[|?c ?w]|]; destruct rel as [?r|];
  cbn; try (destruct (is_pleasant r); cbn);
  intuition congruence.

(** C3.  In both validators: a pleasant habit is rejected whenever its
    reward or its related habit is present; a useful habit is rejected
    whenever both are present; in every other case neither of these checks
    rejects, and the outcome is that of the remaining check on the related
    habit.  Present is what the validators test: neither [None] nor empty. *)
Theorem C3_pleasant_reward_related_rules (h : Habit) (data : Data) :
  (is_pleasant h = true ->
   present (reward h) \/ present (related_habit h) ->
   clean h = raise_validation PleasantHabitHasReward
   \/ clean h = raise_validation PleasantHabitHasRelated)
  /\ (is_pleasant h = false ->
      present (reward h) /\ present (related_habit h) ->
      clean h = raise_validation RewardAndRelatedBothSet)
  /\ (~ (is_pleasant h = true
         /\ (present (reward h) \/ present (related_habit h))) ->
      ~ (is_pleasant h = false
         /\ present (reward h) /\ present (related_habit h)) ->
      clean h = Ok tt \/ clean h = raise_validation RelatedHabitNotPleasant)
  /\ (get_or (data_is_pleasant data) false = true ->
      present (get (data_reward data))
      \/ present (get (data_related_habit data)) ->
      validate data = Raise (SerializerValidationError PleasantHabitHasReward)
      \/ validate data
         = Raise (SerializerValidationError PleasantHabitHasRelated))
  /\ (get_or (data_is_pleasant data) false = false ->
      present (get (data_reward data))
      /\ present (get (data_related_habit data)) ->
      validate data = Raise (SerializerValidationError RewardAndRelatedBothSet))
  /\ (~ (get_or (data_is_pleasant data) false = true
         /\ (present (get (data_reward data))
             \/ present (get (data_related_habit data)))) ->
      ~ (get_or (data_is_pleasant data) false = false
         /\ present (get (data_reward data))
         /\ present (get (data_related_habit data))) ->
      validate data = Ok data
      \/ validate data
         = Raise (SerializerValidationError RelatedHabitNotPleasant)).
Proof.
  rewrite clean_violated_rule, validate_violated_rule.
  repeat split.
  1-3: rule_cases (is_pleasant h) (reward h) (related_habit h).
  all: rule_cases (get_or (data_is_pleasant data) false)
                  (get (data_reward data)) (get (data_related_habit data)).
Qed.

(** The pleasant habit with a reward of the model tests is rejected. *)
Lemma C3_witness :
  clean (with_reward (Some "Не должно быть") rest)
    = raise_validation PleasantHabitHasReward
  \/ clean (with_reward (Some "Не должно быть") rest)
    = raise_validation PleasantHabitHasRelated.
Proof.
  apply (proj1 (C3_pleasant_reward_related_rules
                  (with_reward (Some "Не должно быть") rest) no_data)).
  - reflexivity.
  - left. reflexivity.
Defined.

(** C4, as stated, fails on a useful habit that carries a reward: with a
    pleasant related habit it is rejected all the same, and with a related
    habit that is not pleasant the error is not [RelatedHabitNotPleasant]. *)
Lemma C4_counterexample :
  let coffee := with_reward (Some "coffee") drink_water in
  (clean (with_related_habit (Some rest) coffee)
     = raise_validation RewardAndRelatedBothSet
   /\ is_pleasant rest = true)
  /\ (clean (with_related_habit (Some work) coffee)
       = raise_validation RewardAndRelatedBothSet
      /\ is_pleasant work = false)
  /\ ~ (forall h r : Habit, related_habit h = Some r ->
         (is_ok (clean h) = false <-> is_pleasant r = false))
  /\ ~ (forall h r : Habit, related_habit h = Some r ->
         (clean h = raise_validation RelatedHabitNotPleasant
          <-> is_pleasant r = false)).
Proof.
  cbv zeta. repeat split.
  - intros H.
    specialize (H (with_related_habit (Some rest)
                     (with_reward (Some "coffee") drink_water))
                  rest eq_refl).
    destruct H as [H _]. specialize (H eq_refl). discriminate H.
  - intros H.
    specialize (H (with_related_habit (Some work)
                     (with_reward (Some "coffee") drink_water))
                  work eq_refl).
    destruct H as [_ H]. specialize (H eq_refl). discriminate H.
Qed.

(** C4, amended.  For a habit with a related habit present: if the
    referenced habit is not pleasant the habit is rejected; the error is
    [RelatedHabitNotPleasant] exactly when, in addition, the habit is useful
    and has no reward present; and for such a habit (useful, no reward
    present) rejection happens if and only if the referenced habit is not
    pleasant.  The same holds for the serializer on the entries of the
    request data. *)
Theorem C4_related_habit_must_be_pleasant (h r : Habit) (data : Data) :
  (related_habit h = Some r ->
   (is_pleasant r = false -> is_ok (clean h) = false)
   /\ (clean h = raise_validation RelatedHabitNotPleasant
       <-> is_pleasant r = false /\ is_pleasant h = false
           /\ ~ present (reward h))
   /\ (is_pleasant h = false -> ~ present (reward h) ->
       (is_ok (clean h) = false <-> is_pleasant r = false)))
  /\ (get (data_related_habit data) = Some r ->
      (is_pleasant r = false -> is_ok (validate data) = false)
      /\ (validate data = Raise (SerializerValidationError RelatedHabitNotPleasant)
          <-> is_pleasant r = false
              /\ get_or (data_is_pleasant data) false = false
              /\ ~ present (get (data_reward data)))
      /\ (get_or (data_is_pleasant data) false = false ->
          ~ present (get (data_reward data)) ->
          (is_ok (validate data) = false <-> is_pleasant r = false))).
Proof.
  rewrite clean_violated_rule, validate_violated_rule.
  unfold raise_validation.
  split; intros E; rewrite E; unfold violated_rule, present.
  - destruct (is_pleasant h); destruct (reward h) as [[|c w]|];
      cbn; destruct (is_pleasant r); cbn; intuition congruence.
  - destruct (get_or (data_is_pleasant data) false);
      destruct (get (data_reward data)) as [[|c w]|];
      cbn; destruct (is_pleasant r); cbn; intuition congruence.
Qed.

(** The model test: a useful habit related to one that is not pleasant. *)
Lemma C4_witness :
  clean (with_related_habit (Some work) drink_water)
    = raise_validation RelatedHabitNotPleasant.
Proof.
  apply (proj1 (proj2 (proj1 (C4_related_habit_must_be_pleasant
                                (with_related_habit (Some work) drink_water)
                                work no_data) eq_refl))).
  split; [reflexivity | split; [reflexivity | discriminate]].
Defined.

(** C10.  Both validators treat a reward set to the empty string exactly as
    an absent reward; in particular a pleasant habit whose reward is the
    empty string and that has no related habit is accepted by [clean] and by
    [validate]. *)
Theorem C10_empty_reward_counts_as_absent (h : Habit) (data : Data) :
  clean (with_reward (Some EmptyString) h) = clean (with_reward None h)
  /\ is_ok (validate (data_with_reward (Some (Some EmptyString)) data))
     = is_ok (validate (data_with_reward (Some None) data))
  /\ is_ok (validate (data_with_reward (Some (Some EmptyString)) data))
     = is_ok (validate (data_with_reward None data))
  /\ (is_pleasant h = true -> related_habit h = None ->
      clean (with_reward (Some EmptyString) h) = Ok tt)
  /\ (data_is_pleasant data = Some true ->
      get (data_related_habit data) = None ->
      validate (data_with_reward (Some (Some EmptyString)) data)
      = Ok (data_with_reward (Some (Some EmptyString)) data)).
Proof.
  rewrite !clean_violated_rule, !validate_violated_rule.
  split; [| split; [| split; [| split]]].
  - reflexivity.
  - cbn. destruct (violated_rule _ _ _); reflexivity.
  - cbn. destruct (violated_rule _ _ _); reflexivity.
  - cbn. intros Hp Hr. rewrite Hp, Hr. reflexivity.
  - cbn. intros Hp Hr. rewrite Hp, Hr. reflexivity.
Qed.

Lemma C10_witness :
  clean (with_reward (Some EmptyString) rest) = Ok tt.
Proof.
  apply (proj1 (proj2 (proj2 (proj2
           (C10_empty_reward_counts_as_absent rest no_data)))));
    reflexivity.
Defined.

(** *** Field ranges *)

Lemma frequency_validators_pass (f : Z) :
  run_validators frequency_validators f = [] <-> 1 <= f <= 7.
Proof.
  change frequency_validators with [MinValueValidator 1; MaxValueValidator 7].
  cbn. destruct (f <? 1) eqn:Hmin; destruct (7 <? f) eqn:Hmax;
    rewrite ?Z.ltb_lt, ?Z.ltb_ge in *; split; intros H;
    try discriminate; try reflexivity; lia.
Qed.

Lemma duration_validators_pass (d : Z) :
  run_validators duration_validators d = [] <-> 0 <= d <= 2.
Proof.
  change duration_validators with [MaxValueValidator 2; MinValueValidator 0].
  cbn. destruct (2 <? d) eqn:Hmax; destruct (d <? 0) eqn:Hmin;
    rewrite ?Z.ltb_lt, ?Z.ltb_ge in *; split; intros H;
    try discriminate; try reflexivity; lia.
Qed.

Lemma full_clean_ok (h : Habit) :
  is_ok (full_clean h) = true <-> clean_fields h = [] /\ clean h = Ok tt.
Proof.
  unfold full_clean. rewrite clean_violated_rule.
  destruct (violated_rule _ _ _) as [v|]; cbn.
  - destruct (clean_fields h); cbn; split;
      [discriminate | intros [_ H]; discriminate H
      | discriminate | intros [H _]; discriminate H].
  - rewrite app_nil_r. destruct (clean_fields h); cbn; split; auto;
      [discriminate | intros [H _]; discriminate H].
Qed.

Lemma clean_fields_ranges (h : Habit) :
  clean_fields h = [] -> 0 <= duration h <= 2 /\ 1 <= frequency h <= 7.
Proof.
  unfold clean_fields, integer_field_errors. intros H.
  repeat (apply app_eq_nil in H; destruct H as [? H]).
  split.
  - apply duration_validators_pass. eapply map_eq_nil. eassumption.
  - apply frequency_validators_pass. eapply map_eq_nil. eassumption.
Qed.

(** C9, as stated, fails at a duration of zero: the habit of the model tests
    with [duration = 0] passes [full_clean], and zero is not positive. *)
Lemma C9_counterexample :
  full_clean (with_duration 0 drink_water) = Ok tt
  /\ ~ (forall h : Habit, is_ok (full_clean h) = true ->
         0 < duration h <= 2 /\ 1 <= frequency h <= 7).
Proof.
  split; [reflexivity |].
  intros H. specialize (H (with_duration 0 drink_water) eq_refl).
  cbn in H. lia.
Qed.

(** C9, amended.  A habit accepted by [full_clean] has a duration from 0 to
    2 and a frequency from 1 to 7, and a habit whose duration or frequency
    is outside these ranges is rejected. *)
Theorem C9_duration_frequency_ranges (h : Habit) :
  (is_ok (full_clean h) = true ->
   0 <= duration h <= 2 /\ 1 <= frequency h <= 7)
  /\ (~ (0 <= duration h <= 2 /\ 1 <= frequency h <= 7) ->
      is_ok (full_clean h) = false).
Proof.
  assert (Hacc : is_ok (full_clean h) = true ->
                 0 <= duration h <= 2 /\ 1 <= frequency h <= 7).
  { intros H. apply full_clean_ok in H. apply clean_fields_ranges, H. }
  split; [exact Hacc |].
  intros Hout. destruct (is_ok (full_clean h)); [| reflexivity].
  exfalso. apply Hout, Hacc. reflexivity.
Qed.

(** The habits of the model tests with ten days and with five minutes. *)
Lemma C9_witness :
  is_ok (full_clean (with_frequency 10 drink_water)) = false
  /\ is_ok (full_clean (with_duration 5 drink_water)) = false.
Proof.
  split.
  - apply (proj2 (C9_duration_frequency_ranges (with_frequency 10 drink_water))).
    cbn. lia.
  - apply (proj2 (C9_duration_frequency_ranges (with_duration 5 drink_water))).
    cbn. lia.
Defined.

(** *** The two layers *)

(** On a create the serializer and the model look at the same triple: the
    request data is accepted by [validate] exactly when the row built from it
    is accepted by [clean]. *)
Lemma validate_agrees_with_clean_on_create (request_user : User)
    (now : DateTime) (t : Time) (a : string) (d : Z) (data : Data) :
  is_ok (validate data) = is_ok (clean (create request_user now t a d data)).
Proof.
  rewrite clean_violated_rule, validate_violated_rule. cbn.
  destruct (violated_rule _ _ _); reflexivity.
Qed.

(** On an update that supplies the three entries the two layers agree as
    well. *)
Lemma validate_agrees_with_clean_on_full_update (instance : Habit)
    (data : Data) (p : bool) (rew : option string) (rel : option Habit) :
  data_is_pleasant data = Some p ->
  data_reward data = Some rew ->
  data_related_habit data = Some rel ->
  is_ok (validate data) = is_ok (clean (update instance data)).
Proof.
  intros Hp Hr Hl.
  rewrite clean_violated_rule, validate_violated_rule. cbn.
  rewrite Hp, Hr, Hl. cbn.
  destruct (violated_rule _ _ _); reflexivity.
Qed.

(** A row the API creates satisfies the rules of the model layer. *)
Lemma api_create_clean (request_user : User) (now : DateTime) (data : Data)
    (h : Habit) :
  api_create request_user now data = Ok h -> clean h = Ok tt.
Proof.
  unfold api_create, required.
  destruct (data_time data) as [t|]; cbn [bind Result_Monad]; [| discriminate].
  destruct (data_action data) as [a|]; cbn [bind Result_Monad];
    [| discriminate].
  destruct (data_duration data) as [d|]; cbn [bind Result_Monad];
    [| discriminate].
  pose proof (validate_agrees_with_clean_on_create request_user now t a d data)
    as Hagree.
  rewrite validate_violated_rule in Hagree |- *.
  destruct (violated_rule _ _ _); [discriminate |].
  intros E. injection E as <-.
  destruct (clean _) as [[]|e]; [reflexivity | discriminate Hagree].
Qed.

(** C5.  A PATCH that sets only [reward] on the stored pleasant habit is
    accepted by [validate], which sees no [is_pleasant] entry and takes it
    for false; the update is committed, and the row it leaves in the store is
    one [clean] rejects with [PleasantHabitHasReward]. *)
Theorem C5_partial_update_layers_disagree :
  clean rest = Ok tt
  /\ validate (patch_reward "coffee") = Ok (patch_reward "coffee")
  /\ api_partial_update rest (patch_reward "coffee")
     = Ok (with_reward (Some "coffee") rest)
  /\ clean (with_reward (Some "coffee") rest)
     = raise_validation PleasantHabitHasReward.
Proof. repeat split. Qed.

(** The same gap on the second rule: a PATCH that sets only [related_habit]
    on a useful habit that already has a reward. *)
Lemma partial_update_reward_and_related :
  let coffee := with_reward (Some "coffee") drink_water in
  clean coffee = Ok tt
  /\ api_partial_update coffee (patch_related_habit rest)
     = Ok (with_related_habit (Some rest) coffee)
  /\ clean (with_related_habit (Some rest) coffee)
     = raise_validation RewardAndRelatedBothSet.
Proof. repeat split. Qed.

(** * The tasks *)

Section TaskProofs.

Variable TELEGRAM_BOT_TOKEN : option string.
Variable network : Network.
Variable count_query_error : User -> option Exn.

Lemma lookup_telegram_id_resolve (u : User) (attempts : list Request) :
  lookup_telegram_id u attempts = (Ok (resolve u), attempts).
Proof.
  unfold lookup_telegram_id, hasattr_profile, get_profile, resolve.
  destruct (profile u) as [p|]; cbn; [| reflexivity].
  destruct (truthy (telegram_id p)); reflexivity.
Qed.

(** What [send_telegram_message] amounts to. *)
Lemma send_telegram_message_eq (chat text : string)
    (attempts : list Request) :
  send_telegram_message TELEGRAM_BOT_TOKEN network chat text attempts =
    if truthy TELEGRAM_BOT_TOKEN then
      let request := sendMessage_request TELEGRAM_BOT_TOKEN chat text in
      (Ok match network attempts request with
          | Responds response => status_code response =? 200
          | Raises _ => false
          end,
       request :: attempts)
    else (Ok false, attempts).
Proof.
  unfold send_telegram_message.
  destruct (truthy TELEGRAM_BOT_TOKEN); cbn; [| reflexivity].
  unfold try_except, requests_post; cbn.
  destruct (network attempts _) as [response | e]; cbn.
  - destruct (status_code response =? 200); reflexivity.
  - destruct e; reflexivity.
Qed.

Lemma reminder_step_eq (habit : Habit) (sent_count skipped_count : nat)
    (attempts : list Request) :
  reminder_step TELEGRAM_BOT_TOKEN network habit
                (sent_count, skipped_count) attempts =
    match resolve (user habit) with
    | Some address =>
        match send_telegram_message TELEGRAM_BOT_TOKEN network address
                                    (reminder_message habit) attempts with
        | (Ok true, attempts') => (Ok (S sent_count, skipped_count), attempts')
        | (Ok false, attempts') => (Ok (sent_count, S skipped_count), attempts')
        | (Raise e, attempts') => (Raise e, attempts')
        end
    | None => (Ok (sent_count, S skipped_count), attempts)
    end.
Proof.
  unfold reminder_step, try_except.
  cbv beta iota delta [bind M_Monad].
  rewrite lookup_telegram_id_resolve. cbn.
  unfold resolve.
  destruct (profile (user habit)) as [p|]; cbn; [| reflexivity].
  destruct (telegram_id p) as [[|c address]|]; cbn; try reflexivity.
  destruct (send_telegram_message _ _ _ _ attempts) as [[[|]|e] attempts'];
    reflexivity.
Qed.

(** One iteration: the attempts it adds, and the one counter it bumps. *)
Lemma reminder_step_outcome (habit : Habit) (sent_count skipped_count : nat)
    (attempts : list Request) :
  let attempts' :=
    rev (reminder_requests TELEGRAM_BOT_TOKEN habit) ++ attempts in
  reminder_step TELEGRAM_BOT_TOKEN network habit
                (sent_count, skipped_count) attempts
    = (Ok (S sent_count, skipped_count), attempts')
  \/ reminder_step TELEGRAM_BOT_TOKEN network habit
                   (sent_count, skipped_count) attempts
    = (Ok (sent_count, S skipped_count), attempts').
Proof.
  cbv zeta. rewrite reminder_step_eq. unfold reminder_requests.
  destruct (resolve (user habit)) as [address|] eqn:Hres; [| right; reflexivity].
  rewrite send_telegram_message_eq.
  destruct (truthy TELEGRAM_BOT_TOKEN); [| right; reflexivity].
  cbn. destruct (network attempts _) as [response | e]; [| right; reflexivity].
  destruct (status_code response =? 200); [left | right]; reflexivity.
Qed.

Lemma reminder_loop (habits : list Habit) :
  forall (sent_count skipped_count : nat) (attempts : list Request),
  exists sent_count' skipped_count' : nat,
    for_each habits (reminder_step TELEGRAM_BOT_TOKEN network)
             (sent_count, skipped_count) attempts
      = (Ok (sent_count', skipped_count'),
         rev (flat_map (reminder_requests TELEGRAM_BOT_TOKEN) habits)
         ++ attempts)
    /\ (sent_count' + skipped_count'
        = sent_count + skipped_count + List.length habits)%nat.
Proof.
  induction habits as [| habit habits IH]; intros sent_count skipped_count attempts.
  - exists sent_count, skipped_count. split; [reflexivity | cbn; lia].
  - cbn [for_each flat_map]. rewrite rev_app_distr, <- app_assoc.
    cbn [bind M_Monad].
    destruct (reminder_step_outcome habit sent_count skipped_count attempts)
      as [E | E]; rewrite E.
    + destruct (IH (S sent_count) skipped_count
                   (rev (reminder_requests TELEGRAM_BOT_TOKEN habit) ++ attempts))
        as (s' & k' & E' & Hsum).
      exists s', k'. split; [exact E' | cbn [List.length]; lia].
    + destruct (IH sent_count (S skipped_count)
                   (rev (reminder_requests TELEGRAM_BOT_TOKEN habit) ++ attempts))
        as (s' & k' & E' & Hsum).
      exists s', k'. split; [exact E' | cbn [List.length]; lia].
Qed.

Lemma weekly_step_eq (store : Store) (week_ago : DateTime) (u : User)
    (attempts : list Request) :
  weekly_step TELEGRAM_BOT_TOKEN network count_query_error store week_ago u tt
              attempts
  = (Ok tt,
     rev (weekly_requests TELEGRAM_BOT_TOKEN count_query_error store week_ago u)
     ++ attempts).
Proof.
  unfold weekly_step, try_except, count_created_since.
  cbv beta iota delta [bind M_Monad].
  rewrite lookup_telegram_id_resolve.
  unfold weekly_requests, resolve.
  destruct (profile u) as [p|]; cbn; [| reflexivity].
  destruct (telegram_id p) as [[|c address]|]; cbn; try reflexivity.
  destruct (count_query_error u) as [e|]; cbn; [reflexivity |].
  rewrite send_telegram_message_eq.
  destruct (truthy TELEGRAM_BOT_TOKEN); reflexivity.
Qed.

Lemma weekly_loop (store : Store) (week_ago : DateTime) (us : list User) :
  forall attempts : list Request,
    for_each us
      (weekly_step TELEGRAM_BOT_TOKEN network count_query_error store week_ago)
      tt attempts
    = (Ok tt,
       rev (flat_map (weekly_requests TELEGRAM_BOT_TOKEN count_query_error
                                      store week_ago) us)
       ++ attempts).
Proof.
  induction us as [| u us IH]; intros attempts; [reflexivity |].
  cbn [for_each flat_map bind M_Monad].
  rewrite weekly_step_eq, IH, rev_app_distr, <- app_assoc. reflexivity.
Qed.

End TaskProofs.

(** ** The due set *)

Lemma is_due_true (current_time : Time) (h : Habit) :
  is_due current_time h = true <->
  hour (time h) = hour current_time
  /\ minute (time h) = minute current_time
  /\ is_active (user h) = true.
Proof.
  unfold is_due. rewrite !andb_true_iff, !Z.eqb_eq, Bool.eqb_true_iff. tauto.
Qed.

Lemma due_habits_ext (store : Store) (now now' : DateTime) :
  hour (time_of now) = hour (time_of now') ->
  minute (time_of now) = minute (time_of now') ->
  due_habits store now = due_habits store now'.
Proof.
  intros Hh Hm. unfold due_habits, is_due. cbv zeta. rewrite Hh, Hm.
  reflexivity.
Qed.

Lemma time_of_whole_days (now k : Z) :
  hour (time_of (now + timedelta_days k)) = hour (time_of now)
  /\ minute (time_of (now + timedelta_days k)) = minute (time_of now).
Proof.
  unfold time_of, timedelta_days, us_per_day, us_per_hour, us_per_minute,
    us_per_second. cbn [hour minute].
  split.
  - replace (now + k * (24 * (60 * (60 * 1000000))))
      with (now + (k * 24) * (60 * (60 * 1000000))) by lia.
    rewrite Z.div_add by lia. apply Z_mod_plus_full.
  - replace (now + k * (24 * (60 * (60 * 1000000))))
      with (now + (k * 24 * 60) * (60 * 1000000)) by lia.
    rewrite Z.div_add by lia.
    replace (k * 24 * 60) with ((k * 24) * 60) by lia.
    apply Z_mod_plus_full.
Qed.

Lemma time_of_minute_start (now : Z) :
  hour (time_of (now / us_per_minute * us_per_minute)) = hour (time_of now)
  /\ minute (time_of (now / us_per_minute * us_per_minute))
     = minute (time_of now).
Proof.
  unfold time_of, us_per_hour, us_per_minute, us_per_second.
  cbn [hour minute].
  set (m := 60 * 1000000). assert (Hm : 0 < m) by (subst m; lia).
  split.
  - rewrite Z.div_mul_cancel_r by lia.
    rewrite (Z.mul_comm 60 m), <- Z.div_div by lia. reflexivity.
  - rewrite Z.div_mul by lia. reflexivity.
Qed.

(** C1.  The due set of a tick at [now] holds exactly the stored habits
    whose time has the hour and the minute of [now] and whose owner is
    active.  Membership looks at no other field of the habit (not at its
    frequency, in particular: two habits that agree on the hour, the minute
    and the activity of the owner are due together), the seconds of [now]
    are discarded (a tick
    anywhere in the minute has the due set of the start of the minute) and
    so is the date (a tick whole days away has the same due set). *)
Theorem C1_due_set (store : Store) (now : DateTime) :
  (forall h : Habit,
     In h (due_habits store now) <->
     In h (habits store)
     /\ hour (time h) = hour (time_of now)
     /\ minute (time h) = minute (time_of now)
     /\ is_active (user h) = true)
  /\ (forall h1 h2 : Habit,
        hour (time h1) = hour (time h2) ->
        minute (time h1) = minute (time h2) ->
        is_active (user h1) = is_active (user h2) ->
        is_due (time_of now) h1 = is_due (time_of now) h2)
  /\ (forall (h : Habit) (days : Z),
        is_due (time_of now) (with_frequency days h) = is_due (time_of now) h)
  /\ due_habits store (now / us_per_minute * us_per_minute)
     = due_habits store now
  /\ (forall days : Z,
        due_habits store (now + timedelta_days days) = due_habits store now).
Proof.
  split; [| split; [| split; [| split]]].
  - intros h. unfold due_habits. cbv zeta.
    rewrite filter_In, is_due_true. reflexivity.
  - intros h1 h2 Hh Hm Ha. unfold is_due. rewrite Hh, Hm, Ha. reflexivity.
  - reflexivity.
  - apply due_habits_ext; apply time_of_minute_start.
  - intros days. apply due_habits_ext; apply time_of_whole_days.
Qed.

(** At 08:00:30 on the second of January the 08:00 habit is due, whatever
    its frequency. *)
Lemma C1_witness :
  let now := new_year + timedelta_days 1 + 8 * us_per_hour + 30 * us_per_second in
  In drink_water (due_habits (mkStore [testuser] [drink_water; rest]) now)
  /\ is_due (time_of now) (with_frequency 7 (with_duration 2 drink_water))
     = is_due (time_of now) drink_water.
Proof.
  cbv zeta.
  pose proof (C1_due_set (mkStore [testuser] [drink_water; rest])
                (new_year + timedelta_days 1 + 8 * us_per_hour
                 + 30 * us_per_second)) as (Hin & Hfields & _).
  split.
  - apply Hin. split; [left; reflexivity |].
    split; [reflexivity | split; reflexivity].
  - apply Hfields; reflexivity.
Defined.

(** ** The reminder tick *)

(** C2.  Whatever the store, the clock, the transport and its credential,
    a tick returns its summary: the number checked is the size of the due set
    computed at that tick, and the sent and the skipped add up to it.  Each
    iteration of the loop adds one to exactly one of the two counters. *)
Theorem C2_tick_summary (TELEGRAM_BOT_TOKEN : option string)
    (network : Network) (store : Store) (now : DateTime)
    (attempts : list Request) :
  (exists (sent_count skipped_count : nat) (attempts' : list Request),
     send_reminder_notifications TELEGRAM_BOT_TOKEN network store now attempts
     = (Ok (result_text (List.length (due_habits store now))
                        sent_count skipped_count),
        attempts')
     /\ (sent_count + skipped_count
         = List.length (due_habits store now))%nat)
  /\ (forall (habit : Habit) (sent_count skipped_count : nat)
             (attempts0 : list Request),
        exists attempts1 : list Request,
          reminder_step TELEGRAM_BOT_TOKEN network habit
                        (sent_count, skipped_count) attempts0
          = (Ok (S sent_count, skipped_count), attempts1)
          \/ reminder_step TELEGRAM_BOT_TOKEN network habit
                           (sent_count, skipped_count) attempts0
             = (Ok (sent_count, S skipped_count), attempts1)).
Proof.
  split.
  - unfold send_reminder_notifications. cbv zeta.
    destruct (reminder_loop TELEGRAM_BOT_TOKEN network
                (due_habits store now) 0%nat 0%nat attempts)
      as (s' & k' & E & Hsum).
    exists s', k'. eexists. cbn [bind M_Monad]. rewrite E.
    split; [reflexivity | lia].
  - intros habit sent_count skipped_count attempts0. eexists.
    apply reminder_step_outcome.
Qed.

(** The tick at 08:00 with two due habits: the owner of one has an address
    and the send succeeds, the owner of the other has no profile. *)
Lemma tick_two_due_habits :
  let store := mkStore [testuser; other]
                       [drink_water; with_user other drink_water; work] in
  send_reminder_notifications (Some "token")
    (fun _ _ => Responds (mkResponse 200 "ok"))
    store (new_year + 8 * us_per_hour) []
  = (Ok (result_text 2 1 1),
     [sendMessage_request (Some "token") "1001"
                          (reminder_message drink_water)]).
Proof. reflexivity. Qed.

(** The transport times out for the only due habit. *)
Lemma tick_timeout :
  send_reminder_notifications (Some "token") (fun _ _ => Raises Timeout)
    (mkStore [testuser] [drink_water; work]) (new_year + 8 * us_per_hour) []
  = (Ok (result_text 1 0 1),
     [sendMessage_request (Some "token") "1001"
                          (reminder_message drink_water)]).
Proof. reflexivity. Qed.

(** C6.  When the owner of a habit has no profile, or a profile whose
    [telegram_id] is [None] or the empty string, the lookup ends with no
    address and without an exception, the iteration attempts no request and
    adds one to the skipped counter, in the same way in each case.  The
    requests a whole tick attempts are those of the due habits with an
    address, so none is made for such a habit. *)
Theorem C6_no_address_is_skipped (TELEGRAM_BOT_TOKEN : option string)
    (network : Network) (habit : Habit) (sent_count skipped_count : nat)
    (attempts : list Request) :
  profile (user habit) = None
  \/ (exists p : UserProfile,
        profile (user habit) = Some p
        /\ (telegram_id p = None \/ telegram_id p = Some EmptyString)) ->
  lookup_telegram_id (user habit) attempts = (Ok None, attempts)
  /\ reminder_step TELEGRAM_BOT_TOKEN network habit
                   (sent_count, skipped_count) attempts
     = (Ok (sent_count, S skipped_count), attempts)
  /\ reminder_requests TELEGRAM_BOT_TOKEN habit = []
  /\ (forall (store : Store) (now : DateTime),
        exists result : string,
          send_reminder_notifications TELEGRAM_BOT_TOKEN network store now
                                      attempts
          = (Ok result,
             rev (flat_map (reminder_requests TELEGRAM_BOT_TOKEN)
                           (due_habits store now))
             ++ attempts)).
Proof.
  intros Hno.
  assert (Hres : resolve (user habit) = None).
  { unfold resolve.
    destruct Hno as [E | (p & E & [Et | Et])]; rewrite E; [reflexivity | |];
      rewrite Et; reflexivity. }
  split; [| split; [| split]].
  - rewrite lookup_telegram_id_resolve, Hres. reflexivity.
  - rewrite reminder_step_eq, Hres. reflexivity.
  - unfold reminder_requests. rewrite Hres. reflexivity.
  - intros store now. unfold send_reminder_notifications. cbv zeta.
    destruct (reminder_loop TELEGRAM_BOT_TOKEN network
                (due_habits store now) 0%nat 0%nat attempts)
      as (s' & k' & E & _).
    eexists. cbn [bind M_Monad]. rewrite E. reflexivity.
Qed.

(** A due habit of a user without a profile, and one of a user whose
    profile has an empty address. *)
Lemma C6_witness :
  reminder_step (Some "token") (fun _ _ => Raises Timeout)
                (with_user other drink_water) (0%nat, 0%nat) []
  = (Ok (0%nat, 1%nat), [])
  /\ reminder_step (Some "token") (fun _ _ => Raises Timeout)
                   (with_user other2 drink_water) (0%nat, 0%nat) []
     = (Ok (0%nat, 1%nat), []).
Proof.
  split.
  - apply (C6_no_address_is_skipped (Some "token") (fun _ _ => Raises Timeout)
             (with_user other drink_water) 0%nat 0%nat []).
    left. reflexivity.
  - apply (C6_no_address_is_skipped (Some "token") (fun _ _ => Raises Timeout)
             (with_user other2 drink_water) 0%nat 0%nat []).
    right. exists {| telegram_id := Some EmptyString;
                     telegram_username := None |}.
    split; [reflexivity | right; reflexivity].
Defined.

(** ** The transport *)

(** C7.  [send_telegram_message] never raises and attempts at most one
    request, with a timeout of 10.  It returns [True] exactly when the
    credential is configured and the request is answered with status 200.
    Without a credential it returns [False] and attempts nothing; with one it
    returns [False] after a single attempt when the request raises (a
    timeout, another request exception, anything else) or is answered with
    another status.  In the reminder loop every [False] has the same effect:
    one more skipped. *)
Theorem C7_transport_send (TELEGRAM_BOT_TOKEN : option string)
    (network : Network) (chat text : string) (attempts : list Request) :
  let request := sendMessage_request TELEGRAM_BOT_TOKEN chat text in
  let send := send_telegram_message TELEGRAM_BOT_TOKEN network in
  (exists (success : bool) (attempts' : list Request),
     send chat text attempts = (Ok success, attempts')
     /\ (attempts' = attempts \/ attempts' = request :: attempts)
     /\ (success = true <->
         truthy TELEGRAM_BOT_TOKEN = true
         /\ exists response : Response,
              network attempts request = Responds response
              /\ status_code response = 200))
  /\ timeout request = 10
  /\ (truthy TELEGRAM_BOT_TOKEN = false ->
      send chat text attempts = (Ok false, attempts))
  /\ (truthy TELEGRAM_BOT_TOKEN = true ->
      forall e : Exn,
        network attempts request = Raises e ->
        send chat text attempts = (Ok false, request :: attempts))
  /\ (truthy TELEGRAM_BOT_TOKEN = true ->
      forall response : Response,
        network attempts request = Responds response ->
        status_code response <> 200 ->
        send chat text attempts = (Ok false, request :: attempts))
  /\ (forall (habit : Habit) (address : string)
             (sent_count skipped_count : nat) (attempts' : list Request),
        resolve (user habit) = Some address ->
        send address (reminder_message habit) attempts = (Ok false, attempts') ->
        reminder_step TELEGRAM_BOT_TOKEN network habit
                      (sent_count, skipped_count) attempts
        = (Ok (sent_count, S skipped_count), attempts')).
Proof.
  cbv zeta.
  split; [| split; [reflexivity | split; [| split; [| split]]]].
  - rewrite send_telegram_message_eq.
    destruct (truthy TELEGRAM_BOT_TOKEN).
    + eexists. eexists. split; [reflexivity |]. split; [right; reflexivity |].
      destruct (network attempts _) as [response | e].
      * rewrite Z.eqb_eq. split.
        -- intros H. split; [reflexivity |]. exists response. auto.
        -- intros [_ (response' & E & H)]. congruence.
      * split; [discriminate |]. intros [_ (response' & E & _)]. discriminate E.
    + exists false, attempts. split; [reflexivity |]. split; [left; reflexivity |].
      split; [discriminate |]. intros [H _]. discriminate H.
  - intros Hno. rewrite send_telegram_message_eq, Hno. reflexivity.
  - intros Hyes e E. rewrite send_telegram_message_eq, Hyes. cbv zeta.
    rewrite E. reflexivity.
  - intros Hyes response E Hstatus.
    rewrite send_telegram_message_eq, Hyes. cbv zeta. rewrite E.
    apply Z.eqb_neq in Hstatus. rewrite Hstatus. reflexivity.
  - intros habit address sent_count skipped_count attempts' Hres E.
    rewrite reminder_step_eq, Hres, E. reflexivity.
Qed.

(** A configured transport on a network that times out. *)
Lemma C7_witness :
  send_telegram_message (Some "token") (fun _ _ => Raises Timeout)
                        "1001" "text" []
  = (Ok false, [sendMessage_request (Some "token") "1001" "text"]).
Proof.
  apply (proj1 (proj2 (proj2 (proj2
           (C7_transport_send (Some "token") (fun _ _ => Raises Timeout)
                              "1001" "text" []))))
           eq_refl Timeout eq_refl).
Defined.

(** ** The weekly report *)

Lemma weekly_requests_in_run (bot_token : option string)
    (count_query_error : User -> option Exn) (store : Store)
    (week_ago : DateTime) (u : User) (request : Request) :
  In u (users store) ->
  is_active u = true ->
  In request (weekly_requests bot_token count_query_error store week_ago u) ->
  In request
     (flat_map (weekly_requests bot_token count_query_error store week_ago)
               (active_users store)).
Proof.
  intros Hin Hactive Hreq. apply in_flat_map. exists u. split; [| exact Hreq].
  unfold active_users. apply filter_In. split; [exact Hin |].
  rewrite Hactive. reflexivity.
Qed.

(** C8.  An iteration of the weekly loop returns normally whatever the
    store and the transport do: when the count query of a user raises, the
    exception is caught there and nothing is sent for that user.  The job
    goes through every active user and returns its result; the requests it
    attempts are those of each active user in turn, so an active user with an
    address whose own query succeeds is sent a report, whichever other users
    fail. *)
Theorem C8_weekly_report_isolates_failures
    (TELEGRAM_BOT_TOKEN : option string) (network : Network)
    (count_query_error : User -> option Exn) (store : Store) (now : DateTime)
    (attempts : list Request) :
  let week_ago := now - timedelta_days 7 in
  let requests_of :=
    weekly_requests TELEGRAM_BOT_TOKEN count_query_error store week_ago in
  (forall (u : User) (e : Exn) (attempts0 : list Request),
     count_query_error u = Some e ->
     weekly_step TELEGRAM_BOT_TOKEN network count_query_error store week_ago
                 u tt attempts0
     = (Ok tt, attempts0))
  /\ (forall (u : User) (attempts0 : list Request),
        weekly_step TELEGRAM_BOT_TOKEN network count_query_error store
                    week_ago u tt attempts0
        = (Ok tt, rev (requests_of u) ++ attempts0))
  /\ send_weekly_report TELEGRAM_BOT_TOKEN network count_query_error store
                        now attempts
     = (Ok "Недельные отчёты отправлены",
        rev (flat_map requests_of (active_users store)) ++ attempts)
  /\ (forall (u : User) (address : string),
        In u (users store) ->
        is_active u = true ->
        resolve u = Some address ->
        count_query_error u = None ->
        truthy TELEGRAM_BOT_TOKEN = true ->
        In (sendMessage_request TELEGRAM_BOT_TOKEN address
              (weekly_message u
                 (List.length (created_since store u week_ago))))
           (flat_map requests_of (active_users store))).
Proof.
  cbv zeta. split; [| split; [| split]].
  - intros u e attempts0 E. rewrite weekly_step_eq.
    unfold weekly_requests. rewrite E.
    destruct (resolve u); reflexivity.
  - intros u attempts0. apply weekly_step_eq.
  - unfold send_weekly_report. cbv zeta. cbn [bind M_Monad].
    rewrite weekly_loop. reflexivity.
  - intros u address Hin Hactive Hres Hquery Htoken.
    apply (weekly_requests_in_run _ _ _ _ u); [exact Hin | exact Hactive |].
    unfold weekly_requests. rewrite Hres, Hquery, Htoken. left. reflexivity.
Qed.

(** Three active users: the count query of the first raises, the second
    has no profile, the third is sent the report. *)
Lemma C8_witness :
  let store := mkStore [testuser; other; eve] [drink_water] in
  let query_error :=
    fun u : User => if user_id u =? 1 then Some DatabaseError else None in
  weekly_step (Some "token") (fun _ _ => Raises Timeout) query_error store
              (new_year - timedelta_days 7) testuser tt []
  = (Ok tt, [])
  /\ In (sendMessage_request (Some "token") "77"
           (weekly_message eve
              (List.length
                 (created_since store eve (new_year - timedelta_days 7)))))
        (flat_map (weekly_requests (Some "token") query_error store
                                   (new_year - timedelta_days 7))
                  (active_users store)).
Proof.
  cbv zeta.
  pose proof (C8_weekly_report_isolates_failures
                (Some "token") (fun _ _ => Raises Timeout)
                (fun u : User =>
                   if user_id u =? 1 then Some DatabaseError else None)
                (mkStore [testuser; other; eve] [drink_water])
                new_year []) as H.
  cbv zeta in H. destruct H as (Hcaught & _ & _ & Hsent).
  split.
  - apply (Hcaught testuser DatabaseError []). reflexivity.
  - apply (Hsent eve "77").
    + right. right. left. reflexivity.
    + reflexivity.
    + reflexivity.
    + reflexivity.
    + reflexivity.
Defined.

(** * Further properties *)

(** ** Acceptance by the validators *)

Lemma violated_rule_none (pleasant : bool) (rew : option string)
    (rel : option Habit) :
  violated_rule pleasant rew rel = None <-> well_formed_triple pleasant rew rel.
Proof.
  unfold violated_rule, well_formed_triple, present.
  destruct pleasant; destruct rew as [[|c w]|]; destruct rel as [r|];
    cbn; try (destruct (is_pleasant r); cbn);
    intuition congruence.
Qed.

(** X1.  [clean] accepts a habit exactly when the three invariants hold of
    it: a pleasant habit has no reward and no related habit, a useful one
    does not have both, and a related habit is pleasant. *)
Theorem clean_accepts_exactly_well_formed (h : Habit) :
  clean h = Ok tt
  <-> well_formed_triple (is_pleasant h) (reward h) (related_habit h).
Proof.
  rewrite clean_violated_rule, <- violated_rule_none.
  destruct (violated_rule _ _ _); split; intros H;
    try reflexivity; discriminate H.
Qed.

(** X2.  [validate] accepts request data exactly when the invariants hold
    of the three entries it reads (a missing [is_pleasant] counting as
    false, a missing [reward] or [related_habit] as absent), and what it
    returns is the data it was given. *)
Theorem validate_accepts_exactly_well_formed (data : Data) :
  (validate data = Ok data
   <-> well_formed_triple (get_or (data_is_pleasant data) false)
                          (get (data_reward data))
                          (get (data_related_habit data)))
  /\ (forall data' : Data, validate data = Ok data' -> data' = data).
Proof.
  rewrite validate_violated_rule, <- violated_rule_none.
  destruct (violated_rule _ _ _); split;
    try (split; intros H; try reflexivity; discriminate H).
  - intros data' H. discriminate H.
  - intros data' H. injection H as <-. reflexivity.
Qed.

(** X3.  Of the related habit [clean] reads the [is_pleasant] flag and
    nothing else: it does not check that the related habit itself keeps the
    invariants. *)
Theorem clean_reads_only_flag_of_related (h r1 r2 : Habit) :
  is_pleasant r1 = is_pleasant r2 ->
  clean (with_related_habit (Some r1) h)
  = clean (with_related_habit (Some r2) h).
Proof.
  intros Hflag. rewrite !clean_violated_rule. cbn.
  unfold violated_rule, and_not_pleasant. rewrite Hflag. reflexivity.
Qed.

(** A useful habit related to a pleasant habit that carries a reward (and
    is itself rejected) is accepted like one related to a proper pleasant
    habit. *)
Lemma clean_reads_only_flag_of_related_witness :
  clean (with_related_habit (Some (with_reward (Some "coffee") rest))
                            drink_water)
  = clean (with_related_habit (Some rest) drink_water).
Proof.
  apply (clean_reads_only_flag_of_related drink_water
           (with_reward (Some "coffee") rest) rest).
  reflexivity.
Defined.

(** ** Field checks *)

Lemma optional_char_field_passes (name : string) (x : option string) :
  char_field_errors name 200 true x = []
  <-> (forall s : string, x = Some s -> len s <= 200).
Proof.
  unfold char_field_errors. destruct x as [[|c w]|]; cbn [truthy truthy_str].
  - split; [| reflexivity]. intros _ s E. injection E as <-. cbn. lia.
  - destruct (200 <? len (String c w)) eqn:Hlen.
    + apply Z.ltb_lt in Hlen. split; [discriminate |].
      intros H. specialize (H _ eq_refl). lia.
    + apply Z.ltb_ge in Hlen. split; [| reflexivity].
      intros _ s E. injection E as <-. exact Hlen.
  - split; [| reflexivity]. intros _ s E. discriminate E.
Qed.

Lemma required_char_field_passes (name : string) (a : string) :
  char_field_errors name 200 false (Some a) = []
  <-> a <> EmptyString /\ len a <= 200.
Proof.
  unfold char_field_errors. destruct a as [|c w]; cbn [truthy truthy_str].
  - split; [discriminate | intros [H _]; contradiction].
  - destruct (200 <? len (String c w)) eqn:Hlen.
    + apply Z.ltb_lt in Hlen. split; [discriminate | intros [_ H]; lia].
    + apply Z.ltb_ge in Hlen. split; [| reflexivity].
      intros _. split; [discriminate | exact Hlen].
Qed.

Lemma integer_field_passes (name : string) (vs : list Validator) (value : Z) :
  integer_field_errors name vs value = [] <-> run_validators vs value = [].
Proof.
  unfold integer_field_errors. destruct (run_validators vs value); cbn;
    split; intros H; try reflexivity; discriminate H.
Qed.

Lemma app_nil_both {A : Type} (l l' : list A) :
  l ++ l' = [] <-> l = [] /\ l' = [].
Proof.
  split; [apply app_eq_nil | intros [-> ->]; reflexivity].
Qed.

(** X4.  [full_clean] accepts a habit exactly when its action is not empty
    and has at most 200 characters, its place and its reward (when set) have
    at most 200 characters, its frequency is from 1 to 7, its duration from
    0 to 2, and the three invariants hold. *)
Theorem full_clean_accepts_exactly (h : Habit) :
  is_ok (full_clean h) = true
  <-> (action h <> EmptyString /\ len (action h) <= 200)
      /\ (forall s : string, place h = Some s -> len s <= 200)
      /\ (forall s : string, reward h = Some s -> len s <= 200)
      /\ 1 <= frequency h <= 7
      /\ 0 <= duration h <= 2
      /\ well_formed_triple (is_pleasant h) (reward h) (related_habit h).
Proof.
  rewrite full_clean_ok, <- violated_rule_none, clean_violated_rule.
  assert (Hclean : match violated_rule (is_pleasant h) (reward h)
                                        (related_habit h) with
                   | Some v => raise_validation v
                   | None => Ok tt
                   end = Ok tt
                   <-> violated_rule (is_pleasant h) (reward h)
                                     (related_habit h) = None).
  { destruct (violated_rule _ _ _); split; intros H;
      try reflexivity; discriminate H. }
  rewrite Hclean.
  unfold clean_fields. rewrite !app_nil_both.
  rewrite !optional_char_field_passes, required_char_field_passes,
    !integer_field_passes, frequency_validators_pass,
    duration_validators_pass.
  tauto.
Qed.

(** ** The API layer *)

(** X5.  A habit the API creates is owned by the user of the request and
    stamped with the time of creation, whatever the request data says; the
    entries the request leaves out take the defaults of the model (not
    pleasant, daily, private, no place, reward or related habit); and the
    row satisfies the invariants [clean] checks.  Request data without
    [time], [action] or [duration] creates nothing.  (The field checks of
    the serializer, which can only reject more, are not part of
    [api_create].) *)
Theorem api_create_owner_defaults (request_user : User) (now : DateTime)
    (data : Data) :
  (forall h : Habit,
     api_create request_user now data = Ok h ->
     user h = request_user
     /\ created_at h = now
     /\ data_time data = Some (time h)
     /\ data_action data = Some (action h)
     /\ data_duration data = Some (duration h)
     /\ is_pleasant h = get_or (data_is_pleasant data) false
     /\ frequency h = get_or (data_frequency data) 1
     /\ is_public h = get_or (data_is_public data) false
     /\ place h = get (data_place data)
     /\ reward h = get (data_reward data)
     /\ related_habit h = get (data_related_habit data)
     /\ clean h = Ok tt)
  /\ (data_time data = None \/ data_action data = None
      \/ data_duration data = None ->
      is_ok (api_create request_user now data) = false).
Proof.
  split.
  - intros h E. pose proof (api_create_clean _ _ _ _ E) as Hclean.
    revert E. unfold api_create, required.
    destruct (data_time data) as [t|]; cbn [bind Result_Monad];
      [| discriminate].
    destruct (data_action data) as [a|]; cbn [bind Result_Monad];
      [| discriminate].
    destruct (data_duration data) as [d|]; cbn [bind Result_Monad];
      [| discriminate].
    rewrite validate_violated_rule.
    destruct (violated_rule _ _ _); [discriminate |].
    cbn. intros E. injection E as <-. cbn.
    repeat (split; [reflexivity |]). exact Hclean.
  - unfold api_create, required.
    intros [E | [E | E]]; rewrite E;
      destruct (data_time data); try reflexivity;
      destruct (data_action data); reflexivity.
Qed.

(** The request of the API test: no [is_pleasant], no [reward]. *)
Lemma api_create_owner_defaults_witness :
  let data := mkData (Some (Some "Дома")) (Some (mkTime 8 0 0 0))
                     (Some "Новая привычка") None None (Some 1) None
                     (Some 1) (Some false) in
  exists h : Habit,
    api_create testuser new_year data = Ok h
    /\ user h = testuser /\ is_pleasant h = false.
Proof.
  cbv zeta. eexists. split; [reflexivity |].
  pose proof (proj1 (api_create_owner_defaults testuser new_year
                (mkData (Some (Some "Дома")) (Some (mkTime 8 0 0 0))
                        (Some "Новая привычка") None None (Some 1) None
                        (Some 1) (Some false)))
                _ eq_refl) as H.
  split; [apply H | apply H].
Defined.

(** X6.  [update] never changes the owner or the creation time, and an
    empty PATCH changes nothing.  A PATCH that touches none of
    [is_pleasant], [reward] and [related_habit] is accepted by [validate]
    and leaves a row that still passes [clean] when the stored one did. *)
Theorem partial_update_of_other_fields (instance : Habit) (data : Data) :
  user (update instance data) = user instance
  /\ created_at (update instance data) = created_at instance
  /\ update instance no_data = instance
  /\ (data_is_pleasant data = None ->
      data_reward data = None ->
      data_related_habit data = None ->
      api_partial_update instance data = Ok (update instance data)
      /\ clean (update instance data) = clean instance).
Proof.
  split; [reflexivity | split; [reflexivity | split]].
  - destruct instance; reflexivity.
  - intros Hp Hr Hl. split.
    + unfold api_partial_update. rewrite validate_violated_rule.
      rewrite Hp, Hr, Hl. reflexivity.
    + rewrite !clean_violated_rule. cbn. rewrite Hp, Hr, Hl. reflexivity.
Qed.

(** The PATCH of the API test: a new action, nothing else. *)
Lemma partial_update_of_other_fields_witness :
  let data := mkData None None (Some "Обновлённое действие") None None None
                     None None None in
  api_partial_update drink_water data = Ok (update drink_water data)
  /\ clean (update drink_water data) = clean drink_water.
Proof.
  cbv zeta.
  apply (proj2 (proj2 (proj2 (partial_update_of_other_fields drink_water
           (mkData None None (Some "Обновлённое действие") None None None
                   None None None)))));
    reflexivity.
Defined.

(** X7.  The queryset of a user holds exactly the stored habits that the
    user owns or that are public: every own habit, every public habit of
    anybody, and never a private habit of another user.  Two users see the
    same public habits. *)
Theorem get_queryset_own_or_public (store : Store) (request_user : User) :
  (forall h : Habit,
     In h (get_queryset store request_user)
     <-> In h (habits store)
         /\ (user_id (user h) = user_id request_user \/ is_public h = true))
  /\ (forall h : Habit,
        In h (habits store) ->
        user_id (user h) <> user_id request_user ->
        is_public h = false ->
        ~ In h (get_queryset store request_user))
  /\ (forall (other_user : User) (h : Habit),
        is_public h = true ->
        (In h (get_queryset store request_user)
         <-> In h (get_queryset store other_user))).
Proof.
  assert (Hiff : forall (u : User) (h : Habit),
             In h (get_queryset store u)
             <-> In h (habits store)
                 /\ (user_id (user h) = user_id u \/ is_public h = true)).
  { intros u h. unfold get_queryset.
    rewrite filter_In, orb_true_iff, Z.eqb_eq, Bool.eqb_true_iff.
    reflexivity. }
  split; [apply Hiff | split].
  - intros h _ Hother Hprivate Hin. apply Hiff in Hin.
    destruct Hin as [_ [Hown | Hpub]]; [contradiction | congruence].
  - intros other_user h Hpub. rewrite !Hiff. tauto.
Qed.

(** The private habit of [testuser] is not in the queryset of [eve]. *)
Lemma get_queryset_own_or_public_witness :
  ~ In work (get_queryset (mkStore [testuser; eve] [drink_water; work]) eve).
Proof.
  apply (proj1 (proj2 (get_queryset_own_or_public
                         (mkStore [testuser; eve] [drink_water; work]) eve))).
  - right. left. reflexivity.
  - cbn. discriminate.
  - reflexivity.
Defined.

(** ** The reminder tick, in full *)

Lemma reminder_requests_length (bot_token : option string) (habit : Habit) :
  (List.length (reminder_requests bot_token habit) <= 1)%nat.
Proof.
  unfold reminder_requests.
  destruct (resolve (user habit)); [destruct (truthy bot_token) |]; cbn; lia.
Qed.

Lemma reminder_step_exact (bot_token : option string) (network : Network)
    (habit : Habit) (sent_count skipped_count : nat)
    (attempts : list Request) :
  reminder_step bot_token network habit (sent_count, skipped_count) attempts
  = (Ok (if delivered bot_token network habit attempts
         then (S sent_count, skipped_count)
         else (sent_count, S skipped_count)),
     rev (reminder_requests bot_token habit) ++ attempts).
Proof.
  rewrite reminder_step_eq. unfold delivered, reminder_requests.
  destruct (resolve (user habit)) as [address|]; [| reflexivity].
  rewrite send_telegram_message_eq.
  destruct (truthy bot_token); [| reflexivity].
  cbn. destruct (network attempts _) as [response | e]; [| reflexivity].
  destruct (status_code response =? 200); reflexivity.
Qed.

Lemma sent_total_le (bot_token : option string) (network : Network)
    (habits : list Habit) :
  forall attempts : list Request,
    (sent_total bot_token network habits attempts
     <= List.length (flat_map (reminder_requests bot_token) habits))%nat
    /\ (List.length (flat_map (reminder_requests bot_token) habits)
        <= List.length habits)%nat.
Proof.
  induction habits as [| habit habits IH]; intros attempts; [cbn; lia |].
  cbn [sent_total flat_map List.length]. rewrite length_app.
  pose proof (reminder_requests_length bot_token habit) as Hone.
  unfold delivered.
  destruct (reminder_requests bot_token habit) as [| request l];
    cbn [List.length] in *.
  - destruct (IH (rev [] ++ attempts)) as [IH1 IH2]. split; lia.
  - destruct (IH (rev (request :: l) ++ attempts)) as [IH1 IH2].
    destruct (network attempts request) as [response | e];
      [destruct (status_code response =? 200) |]; split; lia.
Qed.

Lemma reminder_loop_exact (bot_token : option string) (network : Network)
    (habits : list Habit) :
  forall (sent_count skipped_count : nat) (attempts : list Request),
    for_each habits (reminder_step bot_token network)
             (sent_count, skipped_count) attempts
    = (Ok ((sent_count + sent_total bot_token network habits attempts)%nat,
           (skipped_count + List.length habits
            - sent_total bot_token network habits attempts)%nat),
       rev (flat_map (reminder_requests bot_token) habits) ++ attempts).
Proof.
  induction habits as [| habit habits IH];
    intros sent_count skipped_count attempts.
  - cbn. apply (f_equal2 pair); [| reflexivity].
    apply f_equal. apply f_equal2; lia.
  - cbn [for_each flat_map sent_total List.length bind M_Monad].
    rewrite reminder_step_exact, rev_app_distr, <- app_assoc.
    pose proof (sent_total_le bot_token network habits
                  (rev (reminder_requests bot_token habit) ++ attempts))
      as [Hle1 Hle2].
    destruct (delivered bot_token network habit attempts);
      rewrite IH; (apply (f_equal2 pair); [| reflexivity]);
      apply f_equal; apply f_equal2; lia.
Qed.

Lemma tick_exact (bot_token : option string) (network : Network)
    (store : Store) (now : DateTime) (attempts : list Request) :
  let due := due_habits store now in
  let sent_count := sent_total bot_token network due attempts in
  send_reminder_notifications bot_token network store now attempts
  = (Ok (result_text (List.length due) sent_count
                     (List.length due - sent_count)),
     rev (flat_map (reminder_requests bot_token) due) ++ attempts).
Proof.
  cbv zeta. unfold send_reminder_notifications. cbv zeta.
  cbn [bind M_Monad]. rewrite reminder_loop_exact. reflexivity.
Qed.

Lemma sent_total_unconfigured (bot_token : option string) (network : Network)
    (habits : list Habit) :
  truthy bot_token = false ->
  forall attempts : list Request,
    sent_total bot_token network habits attempts = 0%nat
    /\ flat_map (reminder_requests bot_token) habits = [].
Proof.
  intros Hno.
  assert (Hreq : forall habit, reminder_requests bot_token habit = []).
  { intros habit. unfold reminder_requests. rewrite Hno.
    destruct (resolve (user habit)); reflexivity. }
  induction habits as [| habit habits IH]; intros attempts;
    [split; reflexivity |].
  cbn [sent_total flat_map]. unfold delivered. rewrite Hreq.
  destruct (IH ([] ++ attempts)) as [IH1 IH2]. cbn [rev].
  rewrite IH1, IH2. split; reflexivity.
Qed.

Lemma length_filter_negb {A : Type} (f : A -> bool) (l : list A) :
  (List.length l - List.length (filter f l)
   = List.length (filter (fun x => negb (f x)) l))%nat.
Proof.
  induction l as [| x l IH]; [reflexivity |].
  pose proof (filter_length_le f l) as Hle.
  cbn [filter List.length]. destruct (f x); cbn [negb List.length]; lia.
Qed.

Lemma sent_total_all_delivered (bot_token : option string)
    (network : Network) (habits : list Habit) :
  truthy bot_token = true ->
  (forall (attempts : list Request) (request : Request),
     exists response : Response,
       network attempts request = Responds response
       /\ status_code response = 200) ->
  forall attempts : list Request,
    sent_total bot_token network habits attempts
    = List.length (filter (fun h => has_address (user h)) habits).
Proof.
  intros Hyes Hnet.
  induction habits as [| habit habits IH]; intros attempts; [reflexivity |].
  cbn [sent_total filter]. rewrite IH.
  unfold delivered, reminder_requests, has_address. rewrite Hyes.
  destruct (resolve (user habit)) as [address|]; [| reflexivity].
  destruct (Hnet attempts
              (sendMessage_request bot_token address (reminder_message habit)))
    as (response & E & Hstatus).
  rewrite E, Hstatus. reflexivity.
Qed.

Lemma reminder_requests_addressed (bot_token : option string)
    (habits : list Habit) :
  (List.length (flat_map (reminder_requests bot_token) habits)
   <= List.length (filter (fun h => has_address (user h)) habits))%nat.
Proof.
  induction habits as [| habit habits IH]; [cbn; lia |].
  cbn [flat_map filter]. rewrite length_app.
  unfold reminder_requests at 1. unfold has_address at 1.
  destruct (resolve (user habit)); [destruct (truthy bot_token) |];
    cbn [List.length]; lia.
Qed.

(** X8.  Without a bot token (unset or empty) a tick attempts no request at
    all and reports every due habit as skipped. *)
Theorem tick_without_credential (bot_token : option string)
    (network : Network) (store : Store) (now : DateTime)
    (attempts : list Request) :
  truthy bot_token = false ->
  send_reminder_notifications bot_token network store now attempts
  = (Ok (result_text (List.length (due_habits store now)) 0
                     (List.length (due_habits store now))),
     attempts).
Proof.
  intros Hno. rewrite tick_exact. cbv zeta.
  destruct (sent_total_unconfigured bot_token network
              (due_habits store now) Hno attempts) as [-> ->].
  rewrite Nat.sub_0_r. reflexivity.
Qed.

Lemma tick_without_credential_witness :
  send_reminder_notifications (Some EmptyString)
    (fun _ _ => Responds (mkResponse 200 "ok"))
    (mkStore [testuser] [drink_water; work]) (new_year + 8 * us_per_hour) []
  = (Ok (result_text 1 0 1), []).
Proof.
  apply (tick_without_credential (Some EmptyString)
           (fun _ _ => Responds (mkResponse 200 "ok"))
           (mkStore [testuser] [drink_water; work])
           (new_year + 8 * us_per_hour) []).
  reflexivity.
Defined.

(** X9.  For a habit whose owner has a profile with a non-empty
    [telegram_id], with the transport configured, an iteration of the loop
    attempts exactly one request: to that id, carrying the reminder of the
    habit.  The habit is counted as sent when the answer has status 200 and
    as skipped otherwise. *)
Theorem reminder_step_with_address (bot_token : option string)
    (network : Network) (habit : Habit) (p : UserProfile) (address : string)
    (sent_count skipped_count : nat) (attempts : list Request) :
  profile (user habit) = Some p ->
  telegram_id p = Some address ->
  address <> EmptyString ->
  truthy bot_token = true ->
  let request :=
    sendMessage_request bot_token address (reminder_message habit) in
  (chat_id request = address /\ text request = reminder_message habit)
  /\ ((exists response : Response,
         network attempts request = Responds response
         /\ status_code response = 200) ->
      reminder_step bot_token network habit (sent_count, skipped_count)
                    attempts
      = (Ok (S sent_count, skipped_count), request :: attempts))
  /\ (~ (exists response : Response,
           network attempts request = Responds response
           /\ status_code response = 200) ->
      reminder_step bot_token network habit (sent_count, skipped_count)
                    attempts
      = (Ok (sent_count, S skipped_count), request :: attempts)).
Proof.
  intros Hp Hid Hne Hyes. cbv zeta.
  assert (Hres : resolve (user habit) = Some address).
  { unfold resolve. rewrite Hp, Hid.
    destruct address; [contradiction | reflexivity]. }
  split; [split; reflexivity |].
  rewrite reminder_step_exact.
  unfold delivered, reminder_requests. rewrite Hres, Hyes. cbn [rev app].
  destruct (network attempts _) as [response | e] eqn:E.
  - destruct (status_code response =? 200) eqn:Hs.
    + split; [reflexivity |]. intros Hnot. exfalso. apply Hnot.
      exists response. split; [reflexivity | apply Z.eqb_eq, Hs].
    + split; [| reflexivity]. intros (response' & E' & Hs').
      injection E' as <-. apply Z.eqb_neq in Hs. contradiction.
  - split; [| reflexivity]. intros (response' & E' & _). discriminate E'.
Qed.

Lemma reminder_step_with_address_witness :
  reminder_step (Some "token") (fun _ _ => Responds (mkResponse 500 "down"))
                drink_water (0%nat, 0%nat) []
  = (Ok (0%nat, 1%nat),
     [sendMessage_request (Some "token") "1001"
                          (reminder_message drink_water)]).
Proof.
  apply (proj2 (proj2 (reminder_step_with_address (Some "token")
           (fun _ _ => Responds (mkResponse 500 "down")) drink_water
           {| telegram_id := Some "1001"; telegram_username := Some "tester" |}
           "1001" 0%nat 0%nat []
           eq_refl eq_refl ltac:(discriminate) eq_refl))).
  intros (response & E & Hs). injection E as <-. discriminate Hs.
Defined.

(** X10.  The requests a tick attempts do not depend on what the transport
    answers: no request is repeated after a failure and none is dropped
    after one.  There is at most one per due habit, and each is addressed to
    the resolved address of a due habit, carries the reminder of that habit
    and has the timeout 10. *)
Theorem tick_requests_independent_of_answers (bot_token : option string)
    (store : Store) (now : DateTime) (attempts : list Request) :
  let new :=
    rev (flat_map (reminder_requests bot_token) (due_habits store now)) in
  (forall network : Network,
     snd (send_reminder_notifications bot_token network store now attempts)
     = new ++ attempts)
  /\ (List.length new <= List.length (due_habits store now))%nat
  /\ (forall request : Request,
        In request new ->
        exists habit : Habit,
          In habit (due_habits store now)
          /\ resolve (user habit) = Some (chat_id request)
          /\ text request = reminder_message habit
          /\ timeout request = 10).
Proof.
  cbv zeta. split; [| split].
  - intros network. rewrite tick_exact. reflexivity.
  - rewrite length_rev. apply (sent_total_le bot_token (fun _ _ => Raises Timeout)
                                 (due_habits store now) []).
  - intros request Hin. apply in_rev in Hin. apply in_flat_map in Hin.
    destruct Hin as (habit & Hdue & Hreq). exists habit.
    split; [exact Hdue |].
    unfold reminder_requests in Hreq.
    destruct (resolve (user habit)) as [address|]; [| contradiction].
    destruct (truthy bot_token); [| contradiction].
    destruct Hreq as [<- | []]. repeat split.
Qed.

Lemma tick_requests_independent_of_answers_witness :
  exists habit : Habit,
    In habit (due_habits (mkStore [testuser] [drink_water; work])
                         (new_year + 8 * us_per_hour))
    /\ resolve (user habit) = Some "1001"
    /\ reminder_message drink_water = reminder_message habit
    /\ 10 = 10.
Proof.
  apply (proj2 (proj2 (tick_requests_independent_of_answers (Some "token")
           (mkStore [testuser] [drink_water; work])
           (new_year + 8 * us_per_hour) []))
           (sendMessage_request (Some "token") "1001"
                                (reminder_message drink_water))).
  left. reflexivity.
Defined.

(** X11.  Nothing records that a reminder was sent: a second tick in the
    same minute (or at the same hour and minute of another day) attempts
    every request of the first tick again. *)
Theorem tick_fired_twice_repeats_requests (bot_token : option string)
    (network : Network) (store : Store) (now now' : DateTime)
    (attempts : list Request) :
  hour (time_of now) = hour (time_of now') ->
  minute (time_of now) = minute (time_of now') ->
  exists new : list Request,
    snd (send_reminder_notifications bot_token network store now attempts)
    = new ++ attempts
    /\ snd (send_reminder_notifications bot_token network store now'
                                        (new ++ attempts))
       = new ++ new ++ attempts.
Proof.
  intros Hh Hm.
  exists (rev (flat_map (reminder_requests bot_token) (due_habits store now))).
  rewrite !tick_exact. cbv zeta. cbn [snd].
  rewrite (due_habits_ext store now' now) by (symmetry; assumption).
  split; reflexivity.
Qed.

Lemma tick_fired_twice_repeats_requests_witness :
  exists new : list Request,
    snd (send_reminder_notifications (Some "token")
           (fun _ _ => Responds (mkResponse 200 "ok"))
           (mkStore [testuser] [drink_water])
           (new_year + 8 * us_per_hour) [])
    = new ++ []
    /\ snd (send_reminder_notifications (Some "token")
              (fun _ _ => Responds (mkResponse 200 "ok"))
              (mkStore [testuser] [drink_water])
              (new_year + 8 * us_per_hour + 30 * us_per_second) (new ++ []))
       = new ++ new ++ [].
Proof.
  apply (tick_fired_twice_repeats_requests (Some "token")
           (fun _ _ => Responds (mkResponse 200 "ok"))
           (mkStore [testuser] [drink_water])
           (new_year + 8 * us_per_hour)
           (new_year + 8 * us_per_hour + 30 * us_per_second) []);
    reflexivity.
Defined.

(** X12.  With the transport configured and a network that answers every
    request with status 200, the tick reports as sent the due habits whose
    owner has an address and as skipped the others. *)
Theorem tick_all_delivered (bot_token : option string) (network : Network)
    (store : Store) (now : DateTime) (attempts : list Request) :
  truthy bot_token = true ->
  (forall (attempts0 : list Request) (request : Request),
     exists response : Response,
       network attempts0 request = Responds response
       /\ status_code response = 200) ->
  let due := due_habits store now in
  fst (send_reminder_notifications bot_token network store now attempts)
  = Ok (result_text
          (List.length due)
          (List.length (filter (fun h => has_address (user h)) due))
          (List.length (filter (fun h => negb (has_address (user h))) due))).
Proof.
  intros Hyes Hnet. cbv zeta. rewrite tick_exact. cbv zeta. cbn [fst].
  rewrite (sent_total_all_delivered bot_token network _ Hyes Hnet).
  rewrite length_filter_negb. reflexivity.
Qed.

Lemma tick_all_delivered_witness :
  fst (send_reminder_notifications (Some "token")
         (fun _ _ => Responds (mkResponse 200 "ok"))
         (mkStore [testuser; other]
                  [drink_water; with_user other drink_water; work])
         (new_year + 8 * us_per_hour) [])
  = Ok (result_text 2 1 1).
Proof.
  apply (tick_all_delivered (Some "token")
           (fun _ _ => Responds (mkResponse 200 "ok"))
           (mkStore [testuser; other]
                    [drink_water; with_user other drink_water; work])
           (new_year + 8 * us_per_hour) []).
  - reflexivity.
  - intros attempts0 request. eexists. split; reflexivity.
Defined.

(** X13.  A tick never reports more habits as sent than it attempted
    requests, and it reports as skipped at least the due habits whose owner
    has no address. *)
Theorem tick_sent_bounded_by_requests (bot_token : option string)
    (network : Network) (store : Store) (now : DateTime)
    (attempts : list Request) :
  exists (sent_count skipped_count : nat) (new : list Request),
    send_reminder_notifications bot_token network store now attempts
    = (Ok (result_text (List.length (due_habits store now))
                       sent_count skipped_count),
       new ++ attempts)
    /\ (sent_count <= List.length new)%nat
    /\ (List.length (filter (fun h => negb (has_address (user h)))
                            (due_habits store now))
        <= skipped_count)%nat.
Proof.
  rewrite tick_exact. cbv zeta.
  eexists. eexists. eexists. split; [reflexivity |].
  pose proof (sent_total_le bot_token network (due_habits store now) attempts)
    as [Hle1 Hle2].
  pose proof (reminder_requests_addressed bot_token (due_habits store now))
    as Haddr.
  rewrite length_rev, <- length_filter_negb. split; lia.
Qed.

(** ** Recipient lookup and message text *)

(** X14.  The lookup of the recipient never raises and attempts no request,
    so the [except UserProfile.DoesNotExist] clause of the reminder loop is
    never taken.  It ends with an address exactly when the user has a
    profile whose [telegram_id] is set and not empty, and the address is that
    [telegram_id]. *)
Theorem lookup_telegram_id_never_raises (u : User) (attempts : list Request) :
  (exists found : option string,
     lookup_telegram_id u attempts = (Ok found, attempts)
     /\ try_except
          (telegram_id <- lookup_telegram_id u ;; ret (Some telegram_id))
          [(DoesNotExist_cls, fun _ => ret None)] attempts
        = (Ok (Some found), attempts))
  /\ (forall address : string,
        lookup_telegram_id u attempts = (Ok (Some address), attempts)
        <-> exists p : UserProfile,
              profile u = Some p
              /\ telegram_id p = Some address
              /\ address <> EmptyString).
Proof.
  split.
  - exists (resolve u). split; [apply lookup_telegram_id_resolve |].
    unfold try_except. cbv beta iota delta [bind M_Monad].
    rewrite lookup_telegram_id_resolve. reflexivity.
  - intros address. rewrite lookup_telegram_id_resolve. unfold resolve.
    destruct (profile u) as [p|].
    + destruct (telegram_id p) as [[|c w]|] eqn:Hid; cbn; split.
      * intros H. discriminate H.
      * intros (p' & Hp & Ha & Hne). injection Hp as <-.
        rewrite Hid in Ha. injection Ha as <-. contradiction.
      * intros H. injection H as <-. exists p.
        split; [reflexivity | split; [exact Hid | discriminate]].
      * intros (p' & Hp & Ha & _). injection Hp as <-.
        rewrite Hid in Ha. injection Ha as <-. reflexivity.
      * intros H. discriminate H.
      * intros (p' & Hp & Ha & _). injection Hp as <-.
        rewrite Hid in Ha. discriminate Ha.
    + split; [intros H; discriminate H |].
      intros (p' & Hp & _). discriminate Hp.
Qed.

(** X15.  In the reminder text a place that is missing or empty is rendered
    as the placeholder, so the text is the one of a habit whose place is the
    placeholder itself; likewise for the reward. *)
Theorem reminder_message_placeholders (h : Habit) :
  (place h = None \/ place h = Some EmptyString ->
   reminder_message h = reminder_message (with_place (Some "Не указано") h))
  /\ (reward h = None \/ reward h = Some EmptyString ->
      reminder_message h = reminder_message (with_reward (Some "Нет") h)).
Proof.
  unfold reminder_message, with_place, with_reward.
  cbn [place time action duration reward].
  split; intros [E | E]; rewrite E; reflexivity.
Qed.

Lemma reminder_message_placeholders_witness :
  reminder_message drink_water
  = reminder_message (with_reward (Some "Нет") drink_water).
Proof.
  apply (proj2 (reminder_message_placeholders drink_water)).
  left. reflexivity.
Defined.

(** ** The weekly report, in full *)

Lemma weekly_requests_length (bot_token : option string)
    (count_query_error : User -> option Exn) (store : Store)
    (week_ago : DateTime) (us : list User) :
  (List.length (flat_map (weekly_requests bot_token count_query_error store
                                          week_ago) us)
   <= List.length us)%nat.
Proof.
  induction us as [| u us IH]; [cbn; lia |].
  cbn [flat_map List.length]. rewrite length_app.
  unfold weekly_requests at 1.
  destruct (resolve u); [destruct (count_query_error u);
                         [| destruct (truthy bot_token)] |];
    cbn [List.length]; lia.
Qed.

(** X16.  The requests of a weekly job do not depend on what the transport
    answers.  There is at most one per active user; each goes to the
    resolved address of an active user whose count query answered, and
    carries the report of that user with the number of the user's habits
    created in the last seven days (the instant seven days ago included).
    Without a bot token no request is attempted. *)
Theorem weekly_report_requests (bot_token : option string)
    (count_query_error : User -> option Exn) (store : Store) (now : DateTime)
    (attempts : list Request) :
  let week_ago := now - timedelta_days 7 in
  let new :=
    rev (flat_map (weekly_requests bot_token count_query_error store week_ago)
                  (active_users store)) in
  (forall network : Network,
     snd (send_weekly_report bot_token network count_query_error store now
                             attempts)
     = new ++ attempts)
  /\ (List.length new <= List.length (active_users store))%nat
  /\ (forall request : Request,
        In request new ->
        exists u : User,
          In u (users store)
          /\ is_active u = true
          /\ resolve u = Some (chat_id request)
          /\ count_query_error u = None
          /\ text request
             = weekly_message u
                 (List.length (created_since store u week_ago)))
  /\ (forall (u : User) (h : Habit),
        In h (created_since store u week_ago)
        <-> In h (habits store)
            /\ user_id (user h) = user_id u
            /\ now - 7 * us_per_day <= created_at h)
  /\ (truthy bot_token = false -> new = []).
Proof.
  cbv zeta. split; [| split; [| split; [| split]]].
  - intros network. unfold send_weekly_report. cbv zeta.
    cbn [bind M_Monad]. rewrite weekly_loop. reflexivity.
  - rewrite length_rev. apply weekly_requests_length.
  - intros request Hin. apply in_rev in Hin. apply in_flat_map in Hin.
    destruct Hin as (u & Hactive & Hreq). exists u.
    unfold active_users in Hactive. apply filter_In in Hactive.
    destruct Hactive as [Hin Hact]. apply Bool.eqb_prop in Hact.
    unfold weekly_requests in Hreq.
    destruct (resolve u) as [address|]; [| contradiction].
    destruct (count_query_error u); [contradiction |].
    destruct (truthy bot_token); [| contradiction].
    destruct Hreq as [<- | []]. repeat split; assumption.
  - intros u h. unfold created_since, timedelta_days.
    rewrite filter_In, andb_true_iff, Z.eqb_eq, Z.leb_le. reflexivity.
  - intros Hno.
    assert (Hnil : forall us,
               flat_map (weekly_requests bot_token count_query_error store
                                         (now - timedelta_days 7)) us = []).
    { induction us as [| u us IH]; [reflexivity |].
      cbn [flat_map]. rewrite IH. unfold weekly_requests. rewrite Hno.
      destruct (resolve u); [destruct (count_query_error u) |]; reflexivity. }
    rewrite Hnil. reflexivity.
Qed.

(** With an empty bot token nothing is attempted, whoever is active. *)
Lemma weekly_report_requests_witness :
  let asleep := mkUser 9 "asleep" false (profile eve) in
  snd (send_weekly_report (Some EmptyString)
         (fun _ _ => Responds (mkResponse 200 "ok")) (fun _ => None)
         (mkStore [testuser; asleep] [drink_water]) new_year [])
  = [].
Proof.
  cbv zeta.
  pose proof (weekly_report_requests (Some EmptyString) (fun _ => None)
                (mkStore [testuser; mkUser 9 "asleep" false (profile eve)]
                         [drink_water])
                new_year []) as H.
  cbv zeta in H. destruct H as (Hsnd & _ & _ & _ & Hno).
  rewrite Hsnd, (Hno eq_refl). reflexivity.
Defined.
